(** * mcp-wordpress: the session gateway of [src/server.ts]

    A shallow embedding of the gateway in [src/server.ts]: the tool adapter
    built by [createMcpServer], the session-id extraction, the HTTP
    application assembled by [startHttpServer] (bearer-token middleware,
    session table, the five routes, the cleanup closure), the stdio
    cleanup closure, [setupProcessHandlers] and the transport selection of
    [main].

    What the file does not own is kept opaque.  The MCP SDK transport and
    engine, [isInitializeRequest], the tool handlers and the HTTP listener
    appear as parameters or as explicit outcomes ("returns" / "throws");
    callbacks the SDK fires ([onsessioninitialized], [onsessionclosed],
    [onclose]) are events of a step function.  Express's own middleware
    registered ahead of the token check ([express.json], [cors]) is not
    modelled: [Server.app] starts at the token middleware. *)

From Stdlib Require Import ZArith.
From stdpp Require Import base strings list gmap.

Local Open Scope string_scope.
Local Open Scope Z_scope.
Local Open Scope list_scope.

(** ** JavaScript values used by the gateway *)

Module Js.

(** Truthiness of a [string]: only the empty string is falsy. *)
Definition nonEmpty (s : string) : bool := negb (String.eqb s "").

(** Truthiness of a [string | undefined]. *)
Definition truthy (v : option string) : bool :=
  match v with
  | Some s => nonEmpty s
  | None => false
  end.

(** [if (v) yes(v) else no] for [v : string | undefined]. *)
Definition ifTruthy {A} (v : option string) (yes : string → A) (no : A) : A :=
  match v with
  | Some s => if nonEmpty s then yes s else no
  | None => no
  end.

(** JSON payloads written with [res.json]; object members keep the order
    of the literal. *)
#[local] Set Warnings "-register-all".
Inductive json : Type :=
| JNull
| JBool (b : bool)
| JNum (n : Z)
| JStr (s : string)
| JObj (members : list (string * json)).
#[local] Set Warnings "register-all".

(** The result of an awaited call. *)
Inductive outcome (A : Type) : Type :=
| Resolved (a : A)
| Rejected (message : string).
Global Arguments Resolved {A} a.
Global Arguments Rejected {A} message.

(** [process.env]. *)
Abbreviation Env := (gmap string string).

(** A JavaScript [Map<string, V>]: entries in insertion order, one per
    key.  [mset] on a present key replaces the value where it stands, on
    an absent key appends; [mdelete] drops the key. *)
Section JsMap.
Context {V : Type}.

Fixpoint mget (k : string) (m : list (string * V)) : option V :=
  match m with
  | [] => None
  | (k', v) :: rest => if String.eqb k k' then Some v else mget k rest
  end.

Fixpoint mset (k : string) (v : V) (m : list (string * V)) : list (string * V) :=
  match m with
  | [] => [(k, v)]
  | (k', v') :: rest =>
      if String.eqb k k' then (k', v) :: rest else (k', v') :: mset k v rest
  end.

Fixpoint mdelete (k : string) (m : list (string * V)) : list (string * V) :=
  match m with
  | [] => []
  | (k', v') :: rest =>
      if String.eqb k k' then mdelete k rest else (k', v') :: mdelete k rest
  end.

Definition keys (m : list (string * V)) : list string := fst <$> m.

End JsMap.

End Js.

(** ** [createMcpServer]: the wrapped tool handler *)

Module ToolAdapter.
Import Js.

(** A content item is a JavaScript object; the handlers type it as
    [{ type: string; text: string }] but the spread copies whatever own
    fields it has. *)
Abbreviation ContentItem := (gmap string json).

(** [{ content, isError }]: the shape of [result.toolResult] and of what
    the wrapped handler returns.  [isError] is [boolean | undefined]. *)
Record ToolResult := {
  content : list ContentItem;
  isError : option bool
}.

Record HandlerResult := { toolResult : ToolResult }.

(** [{ ...item, type: 'text' }] *)
Definition retag (item : ContentItem) : ContentItem :=
  <["type" := JStr "text"]> item.

(** The [wrappedHandler] closure of [createMcpServer], for a given
    [handler]. *)
Definition wrappedHandler {Args : Type}
    (handler : Args → outcome HandlerResult) (args : Args) : outcome ToolResult :=
  match handler args with
  | Resolved result =>
      Resolved {| content := retag <$> content (toolResult result);
                  isError := isError (toolResult result) |}
  | Rejected e => Rejected e
  end.

End ToolAdapter.

(** ** [startHttpServer] and [startStdioServer] *)

Module Server.
Import Js.

(** The value of [req.headers['mcp-session-id']]:
    [string | string[] | undefined]. *)
Inductive HeaderValue :=
| HUndefined
| HString (s : string)
| HArray (values : list string).

(** [getSessionId]: [!value] holds for [undefined] and for the empty
    string, never for an array; [value[0]] of an empty array is
    [undefined]. *)
Definition getSessionId (value : HeaderValue) : option string :=
  match value with
  | HUndefined => None
  | HString s => if nonEmpty s then Some s else None
  | HArray values => head values
  end.

(** The first value a header carries, if it carries one. *)
Definition firstValue (value : HeaderValue) : option string :=
  match value with
  | HUndefined => None
  | HString s => Some s
  | HArray values => head values
  end.

(** Objects of the SDK are known by the order of their construction. *)
Record SessionEntry := {
  server : nat;
  transport : nat
}.

(** Where the port comes from:
    [process.env.PORT ?? process.env.MCP_PORT ?? 8080].  [??] tests for
    [undefined], not for truthiness; the chosen text goes to [Number]. *)
Inductive PortSource :=
| FromPORT (text : string)
| FromMCP_PORT (text : string)
| Default8080.

Definition portSource (env : Env) : PortSource :=
  match env !! "PORT" with
  | Some p => FromPORT p
  | None =>
      match env !! "MCP_PORT" with
      | Some p => FromMCP_PORT p
      | None => Default8080
      end
  end.

(** The lines handed to [logToFile], one constructor per template:
    - [StdioRunning]: "WordPress MCP server running on stdio"
    - [ErrClosingStdioTransport m]: "Error closing stdio transport: m"
    - [ErrClosingMcpServer m]: "Error closing MCP server: m"
    - [WarnNoToken]: "Warning: MCP_API_TOKEN is not set; HTTP transport is
      running without authentication."
    - [SessionInitialized id]: "Initialized MCP session id"
    - [SessionClosed id]: "Closed MCP session id"
    - [ErrClosingServerFor l m]: "Error closing MCP server for session l: m"
    - [ErrClosingTransportFor id m]: "Error closing transport for session
      id: m"
    - [ErrPost m]: "Error handling MCP POST request: m"
    - [ErrGet id m], [ErrDelete id m]: "Error handling MCP GET (DELETE)
      request for session id: m"
    - [Listening p]: "WordPress MCP HTTP server listening on port p"
    - [ShuttingDownHttp]: "Shutting down HTTP server..." *)
Inductive LogEntry :=
| StdioRunning
| ErrClosingStdioTransport (message : string)
| ErrClosingMcpServer (message : string)
| WarnNoToken
| SessionInitialized (sessionId : string)
| SessionClosed (sessionId : string)
| ErrClosingServerFor (label message : string)
| ErrClosingTransportFor (sessionId message : string)
| ErrPost (message : string)
| ErrGet (sessionId message : string)
| ErrDelete (sessionId message : string)
| Listening (port : PortSource)
| ShuttingDownHttp.

Definition isNoTokenWarning (l : LogEntry) : bool :=
  match l with
  | WarnNoToken => true
  | _ => false
  end.

(** How often the missing-token warning stands in a log. *)
Definition warnings (l : list LogEntry) : nat :=
  length (List.filter isNoTokenWarning l).

(** The mutable state the closures of [startHttpServer] share: the
    [sessions] map, the number of SDK objects built so far, the log. *)
Record State := {
  sessions : list (string * SessionEntry);
  allocated : nat;
  log : list LogEntry
}.

Definition logToFile (l : LogEntry) (st : State) : State :=
  {| sessions := sessions st; allocated := allocated st; log := log st ++ [l] |}.

Definition withSessions (m : list (string * SessionEntry)) (st : State) : State :=
  {| sessions := m; allocated := allocated st; log := log st |}.

(** [createSession]: a fresh engine and a fresh transport; the table is
    not touched. *)
Definition createSession (st : State) : State * SessionEntry :=
  ({| sessions := sessions st; allocated := S (S (allocated st)); log := log st |},
   {| server := allocated st; transport := S (allocated st) |}).

(** [ensureSession] *)
Definition ensureSession (st : State) (sessionId : string) : option SessionEntry :=
  mget sessionId (sessions st).

(** *** Callbacks given to the transport *)

(** [onsessioninitialized] of the transport of [session]. *)
Definition onsessioninitialized (session : SessionEntry) (sessionId : option string)
    (st : State) : State :=
  ifTruthy sessionId
    (λ id, logToFile (SessionInitialized id)
             (withSessions (mset id session (sessions st)) st))
    st.

(** [onsessionclosed] *)
Definition onsessionclosed (sessionId : option string) (st : State) : State :=
  ifTruthy sessionId
    (λ id, logToFile (SessionClosed id)
             (withSessions (mdelete id (sessions st)) st))
    st.

(** [transport.onclose]; [sessionId] is [transport.sessionId] at that
    time, [closed] the outcome of [server.close()]. *)
Definition onclose (sessionId : option string) (closed : outcome ()) (st : State) : State :=
  let st1 := ifTruthy sessionId
               (λ id, withSessions (mdelete id (sessions st)) st) st in
  match closed with
  | Resolved _ => st1
  | Rejected m => logToFile (ErrClosingServerFor (default "unknown" sessionId) m) st1
  end.

(** *** Replies *)

(** [{ jsonrpc: '2.0', error: { code, message }, id: null }] *)
Definition rpcError (code : Z) (message : string) : json :=
  JObj [("jsonrpc", JStr "2.0");
        ("error", JObj [("code", JNum code); ("message", JStr message)]);
        ("id", JNull)].

Definition unauthorized : json := rpcError (-32001) "Unauthorized".
Definition unknownSession : json := rpcError (-32000) "Unknown session ID".
Definition initializationRequired : json :=
  rpcError (-32600) "Initialization request required before other operations".
Definition internalError : json := rpcError (-32603) "Internal server error".

(** What a request ends in: [res.status(s).json(payload)],
    [res.status(s).send(text)], a response left to (or already begun by)
    the transport of a session, or no route of this file. *)
Inductive Reply :=
| Json (status : Z) (payload : json)
| Send (status : Z) (text : string)
| ByTransport (session : SessionEntry)
| Unrouted.

(** How the awaited SDK calls of a handler ([server.connect],
    [transport.handleRequest]) end; [headersSent] is [res.headersSent] in
    the [catch]. *)
Inductive Forwarding :=
| Returns
| Throws (message : string) (headersSent : bool).

Inductive Method := GET | POST | DELETE | OTHER.

Section App.
Context {Body : Type}.
(** [isInitializeRequest] of the SDK. *)
Context (isInitializeRequest : Body → bool).

Record Request := {
  method : Method;
  path : string;
  authorization : option string;
  mcpSessionId : HeaderValue;
  body : Body
}.

(** The same request with another [Mcp-Session-Id] header. *)
Definition withSessionHeader (value : HeaderValue) (req : Request) : Request :=
  {| method := method req; path := path req; authorization := authorization req;
     mcpSessionId := value; body := body req |}.

(** The [try] of [app.post('/mcp')] from the forwarding on, with its
    [catch]. *)
Definition forwardPost (st : State) (session : SessionEntry) (ext : Forwarding)
    : State * Reply :=
  match ext with
  | Returns => (st, ByTransport session)
  | Throws m headersSent =>
      (logToFile (ErrPost m) st,
       if headersSent then ByTransport session
       else Json 500 internalError)
  end.

(** [app.post('/mcp', ...)] *)
Definition postMcp (st : State) (req : Request) (ext : Forwarding) : State * Reply :=
  let sessionId := getSessionId (mcpSessionId req) in
  ifTruthy sessionId
    (λ id,
       match ensureSession st id with
       | None => (st, Json 404 unknownSession)
       | Some session => forwardPost st session ext
       end)
    (if negb (isInitializeRequest (body req)) then
       (st, Json 400 initializationRequired)
     else
       let '(st', session) := createSession st in
       forwardPost st' session ext).

(** [app.get('/mcp', ...)] and [app.delete('/mcp', ...)]: one text but for
    the log line, here [onError]. *)
Definition sessionRoute (onError : string → string → LogEntry)
    (st : State) (req : Request) (ext : Forwarding) : State * Reply :=
  let sessionId := getSessionId (mcpSessionId req) in
  ifTruthy sessionId
    (λ id,
       match ensureSession st id with
       | None => (st, Send 404 "Unknown session ID")
       | Some session =>
           match ext with
           | Returns => (st, ByTransport session)
           | Throws m headersSent =>
               (logToFile (onError id m) st,
                if headersSent then ByTransport session
                else Send 500 "Internal server error")
           end
       end)
    (st, Send 400 "Missing session ID").

Definition getMcp := sessionRoute ErrGet.
Definition deleteMcp := sessionRoute ErrDelete.

(** The routes in the order of their registration.  Paths are compared
    with the route patterns as written, and a handler stands for the
    method it is registered under: what Express adds of its own (a
    pattern also matching with another case or a trailing slash, [HEAD]
    served by the [GET] handlers) is not part of this definition, so
    statements about it fix the path and the method by hypothesis. *)
Definition router (st : State) (req : Request) (ext : Forwarding) : State * Reply :=
  match method req with
  | GET =>
      if String.eqb (path req) "/healthz" then (st, Send 200 "ok")
      else if String.eqb (path req) "/" then (st, Send 200 "ok")
      else if String.eqb (path req) "/mcp" then getMcp st req ext
      else (st, Unrouted)
  | POST =>
      if String.eqb (path req) "/mcp" then postMcp st req ext else (st, Unrouted)
  | DELETE =>
      if String.eqb (path req) "/mcp" then deleteMcp st req ext else (st, Unrouted)
  | OTHER => (st, Unrouted)
  end.

(** [authHeader === `Bearer ${requiredToken}`] *)
Definition bearerMatches (requiredToken : string) (req : Request) : bool :=
  match authorization req with
  | Some authHeader => String.eqb authHeader ("Bearer " +:+ requiredToken)
  | None => false
  end.

(** The application from the token middleware on; the middleware is
    installed only [if (requiredToken)]. *)
Definition app (requiredToken : option string)
    (st : State) (req : Request) (ext : Forwarding) : State * Reply :=
  ifTruthy requiredToken
    (λ token,
       if bearerMatches token req then router st req ext
       else (st, Json 401 unauthorized))
    (router st req ext).

(** Whether the request gets past the token middleware. *)
Definition admitted (requiredToken : option string) (req : Request) : bool :=
  ifTruthy requiredToken (λ token, bearerMatches token req) true.

(** What happens to a running HTTP server: a request is handled, or the
    SDK fires one of the callbacks. *)
Inductive Event :=
| Incoming (req : Request) (ext : Forwarding)
| InitializedFired (session : SessionEntry) (sessionId : option string)
| ClosedFired (sessionId : option string)
| OnCloseFired (sessionId : option string) (closed : outcome ()).

Definition step (requiredToken : option string) (st : State) (ev : Event) : State :=
  match ev with
  | Incoming req ext => fst (app requiredToken st req ext)
  | InitializedFired session sessionId => onsessioninitialized session sessionId st
  | ClosedFired sessionId => onsessionclosed sessionId st
  | OnCloseFired sessionId closed => onclose sessionId closed st
  end.

Definition run (requiredToken : option string) (evs : list Event) (st : State) : State :=
  fold_left (step requiredToken) evs st.

(** The events that write an entry: a session-initialized callback with
    a truthy id. *)
Definition publishes (ev : Event) : bool :=
  match ev with
  | InitializedFired _ sessionId => truthy sessionId
  | _ => false
  end.

End App.

(** The state [startHttpServer] leaves once listening: the warning if the
    token is falsy, an empty table. *)
Definition startHttpServer (env : Env) : State :=
  {| sessions := [];
     allocated := 0;
     log := (if truthy (env !! "MCP_API_TOKEN") then [] else [WarnNoToken])
              ++ [Listening (portSource env)] |}.

(** [process.env.MCP_API_TOKEN] *)
Definition requiredToken (env : Env) : option string := env !! "MCP_API_TOKEN".

(** *** Cleanup closures *)

(** Calls into the SDK and the listener made while cleaning up. *)
Inductive Call :=
| TransportClose (transport : nat)
| ServerClose (server : nat)
| ListenerClose.

(** The calls one session is closed with. *)
Definition closingCalls (e : string * SessionEntry) : list Call :=
  [TransportClose (transport e.2); ServerClose (server e.2)].

(** Whether a call throws. *)
Definition throwsOn (fails : Call → option string) (c : Call) : bool :=
  match fails c with
  | Some _ => true
  | None => false
  end.

(** One turn of the [for ... of sessions] loop.  A transport that fires
    its [onclose] while being closed deletes the key this turn deletes
    anyway; that callback is an event of [step], not part of the loop. *)
Definition closeSession (fails : Call → option string)
    (sessionId : string) (session : SessionEntry) (st : State) : State :=
  let st1 := match fails (TransportClose (transport session)) with
             | Some m => logToFile (ErrClosingTransportFor sessionId m) st
             | None => st
             end in
  let st2 := match fails (ServerClose (server session)) with
             | Some m => logToFile (ErrClosingServerFor sessionId m) st1
             | None => st1
             end in
  withSessions (mdelete sessionId (sessions st2)) st2.

(** The loop over the entries [todo] of the map, with the calls made so
    far.  [fails c] is the message [c] throws with, if it throws. *)
Fixpoint closeSessions (fails : Call → option string)
    (todo : list (string * SessionEntry)) (st : State) (calls : list Call)
    : State * list Call :=
  match todo with
  | [] => (st, calls)
  | (sessionId, session) :: rest =>
      closeSessions fails rest (closeSession fails sessionId session st)
        (calls ++ [TransportClose (transport session); ServerClose (server session)])
  end.

(** The closure [startHttpServer] returns. *)
Definition httpCleanup (fails : Call → option string) (st : State)
    : State * list Call * outcome () :=
  let st0 := logToFile ShuttingDownHttp st in
  let '(st1, calls) := closeSessions fails (sessions st0) st0 [] in
  (st1, calls ++ [ListenerClose],
   match fails ListenerClose with
   | Some m => Rejected m
   | None => Resolved ()
   end).

(** [startStdioServer] builds the engine, then the transport. *)
Definition stdioSession : SessionEntry := {| server := 0; transport := 1 |}.

(** The log [startStdioServer] leaves once connected. *)
Definition startStdioServer : list LogEntry := [StdioRunning].

(** The closure [startStdioServer] returns; it never throws. *)
Definition stdioCleanup (fails : Call → option string) (logged : list LogEntry)
    : list LogEntry * list Call * outcome () :=
  let l1 := match fails (TransportClose (transport stdioSession)) with
            | Some m => logged ++ [ErrClosingStdioTransport m]
            | None => logged
            end in
  let l2 := match fails (ServerClose (server stdioSession)) with
            | Some m => l1 ++ [ErrClosingMcpServer m]
            | None => l1
            end in
  (l2, [TransportClose (transport stdioSession); ServerClose (server stdioSession)],
   Resolved ()).

End Server.

(** ** [setupProcessHandlers] *)

Module Shutdown.

Inductive Trigger := SIGTERM | SIGINT | UncaughtException | UnhandledRejection.

(** The argument each handler gives to [shutdown]. *)
Definition exitCodeOf (t : Trigger) : Z :=
  match t with
  | SIGTERM | SIGINT => 0
  | UncaughtException | UnhandledRejection => 1
  end.

(** The process as [setupProcessHandlers] sees it: the [shuttingDown]
    flag, how often [cleanup] was called, the exit code of the [shutdown]
    call that waits for [cleanup], and the code of [process.exit] once it
    was called. *)
Record Process := {
  shuttingDown : bool;
  cleanupCalls : nat;
  awaiting : option Z;
  exited : option Z
}.

Definition boot : Process :=
  {| shuttingDown := false; cleanupCalls := 0; awaiting := None; exited := None |}.

Definition processExit (code : Z) (p : Process) : Process :=
  {| shuttingDown := shuttingDown p; cleanupCalls := cleanupCalls p;
     awaiting := awaiting p; exited := Some code |}.

(** [shutdown(exitCode)] up to its [await]. *)
Definition shutdown (exitCode : Z) (p : Process) : Process :=
  if shuttingDown p then processExit exitCode p
  else {| shuttingDown := true; cleanupCalls := S (cleanupCalls p);
          awaiting := Some exitCode; exited := exited p |}.

(** [shutdown] after its [await]: whether [cleanup] resolved or threw,
    [finally] exits with the code of this call. *)
Definition settle (p : Process) : Process :=
  match awaiting p with
  | Some exitCode => processExit exitCode p
  | None => p
  end.

Inductive Event :=
| Raise (t : Trigger)
| CleanupSettled (threw : bool).

(** Nothing runs after [process.exit]. *)
Definition step (p : Process) (ev : Event) : Process :=
  match exited p with
  | Some _ => p
  | None =>
      match ev with
      | Raise t => shutdown (exitCodeOf t) p
      | CleanupSettled _ => settle p
      end
  end.

Definition run (evs : list Event) (p : Process) : Process := fold_left step evs p.

(** [cleanup] has been called exactly when the flag is set. *)
Definition flagCounts (p : Process) : Prop :=
  cleanupCalls p = if shuttingDown p then 1%nat else 0%nat.

(** Every exit code the process waits with or has exited with is the
    code of a trigger raised before. *)
Definition codesRaised (evs : list Event) (p : Process) : Prop :=
  ∀ code, awaiting p = Some code ∨ exited p = Some code →
          ∃ t, Raise t ∈ evs ∧ code = exitCodeOf t.

(** A [shutdown] call waits for [cleanup] exactly when the flag is set,
    and the process exits only with the flag set. *)
Definition flagWaits (p : Process) : Prop :=
  (is_Some (awaiting p) ↔ shuttingDown p = true)
  ∧ (is_Some (exited p) → shuttingDown p = true).

End Shutdown.

(** ** [main] *)

Module Main.
Import Js.

Inductive Transport := Stdio | Http.

Inductive Startup :=
| Exit (code : Z)
| Running (t : Transport).

(** The branch of [main] on [process.env.PORT]. *)
Definition selectTransport (env : Env) : Transport :=
  if truthy (env !! "PORT") then Http else Stdio.

(** [main]; [initOk] says whether [initWordPress] resolved, [startOk]
    whether the selected [start...Server] did. *)
Definition main (env : Env) (initOk startOk : bool) : Startup :=
  if negb (truthy (env !! "WORDPRESS_API_URL")) then Exit 1
  else if negb initOk then Exit 1
  else if negb startOk then Exit 1
  else Running (selectTransport env).

End Main.

(** ** Concrete inputs *)

Module Samples.
Import Js ToolAdapter Server.

(** A body that is only known by the answer [isInitializeRequest] gives
    on it. *)
Definition isInit (recognised : bool) : bool := recognised.

Definition request (m : Method) (p : string) (auth : option string)
    (sid : HeaderValue) (initialize : bool) : @Request bool :=
  {| method := m; path := p; authorization := auth;
     mcpSessionId := sid; body := initialize |}.

Definition entry0 : SessionEntry := {| server := 0; transport := 1 |}.

(** A server with the one session "abc". *)
Definition oneSession : State :=
  {| sessions := [("abc", entry0)]; allocated := 2; log := [] |}.

Definition threeSessions : State :=
  {| sessions := [("a", {| server := 0; transport := 1 |});
                  ("b", {| server := 2; transport := 3 |});
                  ("c", {| server := 4; transport := 5 |})];
     allocated := 6; log := [] |}.

(** Closing transport 1 and engine 2 throws. *)
Definition twoFailures (c : Call) : option string :=
  match c with
  | TransportClose 1 | ServerClose 2 => Some "stuck"
  | _ => None
  end.

Definition noSessions : State :=
  {| sessions := []; allocated := 0; log := [] |}.

Definition htmlItem : ContentItem :=
  {[ "type" := JStr "html"; "text" := JStr "<p>hi</p>" ]}.

Definition sampleHandler (_ : ()) : outcome HandlerResult :=
  Resolved {| toolResult := {| content := [htmlItem; ∅]; isError := Some true |} |}.

Definition envOnlyMcpPort : Env :=
  {[ "WORDPRESS_API_URL" := "https://wp.example"; "MCP_PORT" := "3000" ]}.

Definition envEmptyToken : Env :=
  {[ "PORT" := "8080"; "MCP_API_TOKEN" := "" ]}.

Definition envSecret : Env :=
  {[ "PORT" := "8080"; "MCP_API_TOKEN" := "secret" ]}.

(** An authorized initialize request without session header, forwarded
    without fault. *)
Definition initializeRequest : @Event bool :=
  Incoming (request POST "/mcp" (Some "Bearer secret") HUndefined true) Returns.

End Samples.

(** * Properties *)

Import Js.

(** ** Truthiness *)

Lemma nonEmpty_true s : nonEmpty s = true ↔ s ≠ "".
Proof.
  unfold nonEmpty. destruct (String.eqb_spec s ""); simpl; split; congruence.
Qed.

Lemma ifTruthy_true {A} v s (yes : string → A) no :
  v = Some s → s ≠ "" → ifTruthy v yes no = yes s.
Proof.
  intros -> Hs. unfold ifTruthy.
  by apply nonEmpty_true in Hs as ->.
Qed.

Lemma ifTruthy_false {A} v (yes : string → A) no :
  truthy v = false → ifTruthy v yes no = no.
Proof.
  destruct v as [s|]; simpl; [|done]. by intros ->.
Qed.

(** ** The tool adapter *)

Section ToolAdapterFacts.
Import ToolAdapter.

Lemma retag_type item : retag item !! "type" = Some (JStr "text").
Proof. unfold retag. apply lookup_insert_eq. Qed.

Lemma retag_other item k : k ≠ "type" → retag item !! k = item !! k.
Proof. intros Hk. unfold retag. by rewrite lookup_insert_ne. Qed.

(** C9.  When the handler returns a sequence of content items and an error
    flag, the wrapped handler returns [{ content, isError }] where
    [content] has as many items, the item at each position is the input
    item at that position with its [type] set to ['text'] and every
    other field as it was, and [isError] is the handler's flag. *)
Theorem wrappedHandler_retags {Args : Type}
    (handler : Args → outcome HandlerResult) (args : Args) (result : HandlerResult) :
  handler args = Resolved result →
  ∃ out,
    wrappedHandler handler args = Resolved out
    ∧ length (content out) = length (content (toolResult result))
    ∧ (∀ i item, content (toolResult result) !! i = Some item →
         ∃ item', content out !! i = Some item'
                  ∧ item' !! "type" = Some (JStr "text")
                  ∧ ∀ k, k ≠ "type" → item' !! k = item !! k)
    ∧ (∀ i, content (toolResult result) !! i = None → content out !! i = None)
    ∧ isError out = isError (toolResult result).
Proof.
  intros Hres. unfold wrappedHandler. rewrite Hres.
  eexists. split; [reflexivity|]. simpl.
  split; [apply length_fmap|].
  split; [|split; [|reflexivity]].
  - intros i item Hi. exists (retag item).
    rewrite list_lookup_fmap, Hi. simpl.
    split; [reflexivity|]. split; [apply retag_type|].
    intros k Hk. by apply retag_other.
  - intros i Hi. by rewrite list_lookup_fmap, Hi.
Qed.

Lemma wrappedHandler_retags_witness :
  ∃ out,
    wrappedHandler Samples.sampleHandler () = Resolved out
    ∧ length (content out) = 2%nat
    ∧ isError out = Some true.
Proof.
  destruct (wrappedHandler_retags Samples.sampleHandler () _ eq_refl)
    as (out & Hout & Hlen & _ & _ & Herr).
  exists out. split; [exact Hout|]. split; [exact Hlen | exact Herr].
Defined.

End ToolAdapterFacts.

(** ** The token middleware and the routes *)

Section HttpFacts.
Import Server.
Context {Body : Type} (isInit : Body → bool).

Implicit Types (st : State) (req : @Request Body) (ext : Forwarding).

Lemma bearerMatches_true token req :
  bearerMatches token req = true ↔ authorization req = Some ("Bearer " +:+ token).
Proof.
  unfold bearerMatches. destruct (authorization req) as [h|]; [|done].
  destruct (String.eqb_spec h ("Bearer " +:+ token)); split; congruence.
Qed.

Lemma bearerMatches_false token req :
  bearerMatches token req = false ↔ authorization req ≠ Some ("Bearer " +:+ token).
Proof.
  rewrite <- bearerMatches_true. destruct (bearerMatches token req); split; congruence.
Qed.

Lemma app_admitted token st req ext :
  admitted token req = true → app isInit token st req ext = router isInit st req ext.
Proof.
  unfold admitted, app, ifTruthy.
  destruct token as [t|]; [|done]. destruct (nonEmpty t); [|done]. by intros ->.
Qed.

Lemma app_refused token st req ext :
  admitted token req = false → app isInit token st req ext = (st, Json 401 unauthorized).
Proof.
  unfold admitted, app, ifTruthy.
  destruct token as [t|]; [|done]. destruct (nonEmpty t); [|done]. by intros ->.
Qed.

Lemma router_healthz st req ext :
  method req = GET → path req = "/healthz" ∨ path req = "/" →
  router isInit st req ext = (st, Send 200 "ok").
Proof.
  intros Hm Hp. unfold router. rewrite Hm. by destruct Hp as [-> | ->].
Qed.

Ltac handler_cases :=
  unfold app, router, getMcp, deleteMcp, sessionRoute, postMcp, forwardPost,
    createSession, ifTruthy;
  repeat case_match; simplify_eq/=; try done.

(** A request never writes to the session table. *)
Lemma app_sessions token st req ext :
  sessions (app isInit token st req ext).1 = sessions st.
Proof. handler_cases. Qed.

Lemma warnings_app l l' : warnings (l ++ l') = (warnings l + warnings l')%nat.
Proof. unfold warnings. by rewrite List.filter_app, length_app. Qed.

Lemma app_warnings token st req ext :
  warnings (log (app isInit token st req ext).1) = warnings (log st).
Proof. handler_cases; rewrite warnings_app; unfold warnings; simpl; lia. Qed.

Lemma step_warnings token st ev :
  warnings (log (step isInit token st ev)) = warnings (log st).
Proof.
  destruct ev as [req ext|session sid|sid|sid closed]; simpl.
  - apply app_warnings.
  - unfold onsessioninitialized, ifTruthy. repeat case_match; simpl; try done.
    rewrite warnings_app; unfold warnings; simpl; lia.
  - unfold onsessionclosed, ifTruthy. repeat case_match; simpl; try done.
    rewrite warnings_app; unfold warnings; simpl; lia.
  - unfold onclose, ifTruthy. repeat case_match; simpl; try done;
      rewrite warnings_app; unfold warnings; simpl; lia.
Qed.

Lemma run_warnings token evs st :
  warnings (log (run isInit token evs st)) = warnings (log st).
Proof.
  unfold run. revert st. induction evs as [|ev evs IH]; intros st; [done|].
  simpl. rewrite IH. apply step_warnings.
Qed.

(** C1 (as amended).  With a non-empty [MCP_API_TOKEN], the token
    middleware stands in front of every route, [GET /healthz] and [GET /]
    included: a request whose [Authorization] header is not exactly
    [Bearer <token>] ends in 401 with the error -32001, the state
    untouched and no route run; a request that carries it is handed to
    the router, where [GET /healthz] and [GET /] answer 200 with the
    plain body "ok". *)
Theorem auth_gate_guards_every_route (token : string) st req ext :
  token ≠ "" →
  (authorization req ≠ Some ("Bearer " +:+ token) →
     app isInit (Some token) st req ext = (st, Json 401 unauthorized))
  ∧ (authorization req = Some ("Bearer " +:+ token) →
       app isInit (Some token) st req ext = router isInit st req ext
       ∧ (method req = GET → path req = "/healthz" ∨ path req = "/" →
            app isInit (Some token) st req ext = (st, Send 200 "ok"))).
Proof.
  intros Htok. apply nonEmpty_true in Htok.
  split.
  - intros Hauth. apply app_refused. unfold admitted; simpl. rewrite Htok.
    by apply bearerMatches_false.
  - intros Hauth.
    assert (app isInit (Some token) st req ext = router isInit st req ext) as Happ.
    { apply app_admitted. unfold admitted; simpl. rewrite Htok.
      by apply bearerMatches_true. }
    split; [done|]. intros Hm Hp. rewrite Happ. by apply router_healthz.
Qed.

(** C2 (as amended).  The gate tests the token for truthiness.  With
    [MCP_API_TOKEN] unset or empty, every request goes to the router
    whatever its [Authorization] header, and the log of the running server
    holds the warning exactly once; with a non-empty token a request
    without the exact bearer header is refused with 401 and -32001, and
    the warning is never logged. *)
Theorem auth_gate_off_iff_token_falsy (env : Env) (evs : list (@Event Body)) :
  let token := requiredToken env in
  let served := run isInit token evs (startHttpServer env) in
  (token = None ∨ token = Some "" →
     (∀ st req ext, app isInit token st req ext = router isInit st req ext)
     ∧ warnings (log served) = 1%nat)
  ∧ (∀ t, token = Some t → t ≠ "" →
       (∀ st req ext, authorization req ≠ Some ("Bearer " +:+ t) →
          app isInit token st req ext = (st, Json 401 unauthorized))
       ∧ warnings (log served) = 0%nat).
Proof.
  intros token served. subst served. rewrite run_warnings.
  unfold startHttpServer. fold (requiredToken env). fold token. simpl.
  split.
  - intros Hfalsy.
    assert (truthy token = false) as Hf by (destruct Hfalsy as [-> | ->]; done).
    split.
    + intros st req ext. apply app_admitted. unfold admitted.
      by rewrite ifTruthy_false.
    + by rewrite Hf.
  - intros t Ht Hne. rewrite Ht. simpl.
    pose proof Hne as Hne'. apply nonEmpty_true in Hne' as ->. split; [|done].
    intros st req ext Hauth. apply bearerMatches_false in Hauth.
    by rewrite Hauth.
Qed.



Lemma postMcp_no_session st req ext :
  truthy (getSessionId (mcpSessionId req)) = false →
  postMcp isInit st req ext
  = if isInit (body req)
    then forwardPost (createSession st).1 (createSession st).2 ext
    else (st, Json 400 initializationRequired).
Proof.
  intros Hf. unfold postMcp. rewrite (ifTruthy_false _ _ _ Hf).
  by destruct (isInit (body req)).
Qed.

Lemma router_post_mcp st req ext :
  method req = POST → path req = "/mcp" →
  router isInit st req ext = postMcp isInit st req ext.
Proof. intros Hm Hp. unfold router. by rewrite Hm, Hp. Qed.

(** C4 (as amended).  A request on [/mcp] that got past the token
    middleware and bears a session id absent from the table ends in 404
    and leaves the state, the table with it, as it was; the body is the
    JSON-RPC envelope with code -32000 for POST, and the plain text
    "Unknown session ID" for GET and DELETE. *)
Theorem unknown_session_is_404 token st req ext (sessionId : string) :
  admitted token req = true →
  path req = "/mcp" →
  getSessionId (mcpSessionId req) = Some sessionId →
  sessionId ≠ "" →
  mget sessionId (sessions st) = None →
  (method req = POST →
     app isInit token st req ext = (st, Json 404 unknownSession))
  ∧ (method req = GET ∨ method req = DELETE →
       app isInit token st req ext = (st, Send 404 "Unknown session ID")).
Proof.
  intros Hadm Hp Hsid Hne Habsent. rewrite (app_admitted _ _ _ _ Hadm).
  unfold router, getMcp, deleteMcp, sessionRoute, postMcp. rewrite Hp. simpl.
  rewrite !(ifTruthy_true _ _ _ _ Hsid Hne). unfold ensureSession. rewrite Habsent.
  split.
  - by intros ->.
  - by intros [-> | ->].
Qed.

(** C8 (as amended).  A [POST /mcp] that got past the token middleware
    (no token configured, or the exact bearer header), carries no session
    id and has a body that is not an initialize request ends in 400 with
    the error -32600, and the state, the table with it, is the one before
    the request. *)
Theorem non_initialize_without_session_is_400 token st req ext :
  admitted token req = true →
  method req = POST →
  path req = "/mcp" →
  truthy (getSessionId (mcpSessionId req)) = false →
  isInit (body req) = false →
  app isInit token st req ext = (st, Json 400 initializationRequired).
Proof.
  intros Hadm Hm Hp Hsid Hinit.
  rewrite (app_admitted _ _ _ _ Hadm), (router_post_mcp _ _ _ Hm Hp).
  by rewrite (postMcp_no_session _ _ _ Hsid), Hinit.
Qed.


End HttpFacts.

(** *** The routes on concrete requests *)

Section HttpSamples.
Import Server Samples.

Lemma auth_gate_guards_every_route_witness :
  "secret" ≠ ""
  ∧ app isInit (Some "secret") oneSession
      (request POST "/mcp" (Some "Bearer Secret") (HString "abc") false) Returns
    = (oneSession, Json 401 unauthorized)
  ∧ app isInit (Some "secret") oneSession
      (request GET "/healthz" (Some "Bearer secret") HUndefined false) Returns
    = (oneSession, Send 200 "ok").
Proof.
  split; [done|]. split.
  - apply (auth_gate_guards_every_route isInit "secret"); done.
  - apply (auth_gate_guards_every_route isInit "secret"); [done..|by left].
Defined.

(** C1, as stated, fails: with the token "secret" configured, a
    [GET /healthz] without [Authorization] header is refused with 401 and
    -32001 instead of being answered 200. *)
Lemma healthz_without_token_is_refused :
  app isInit (Some "secret") noSessions
    (request GET "/healthz" None HUndefined false) Returns
  = (noSessions, Json 401 unauthorized)
  ∧ app isInit (Some "secret") noSessions
      (request GET "/" None HUndefined false) Returns
    = (noSessions, Json 401 unauthorized)
  ∧ Json 401 unauthorized ≠ Send 200 "ok".
Proof. split; [reflexivity|]. split; [reflexivity|]. discriminate. Qed.

Lemma auth_gate_off_iff_token_falsy_witness :
  requiredToken envEmptyToken = Some ""
  ∧ app isInit (requiredToken envEmptyToken) noSessions
      (request GET "/mcp" None HUndefined false) Returns
    = router isInit noSessions (request GET "/mcp" None HUndefined false) Returns
  ∧ warnings (log (run isInit (requiredToken envEmptyToken)
                     [Incoming (request GET "/mcp" None HUndefined false) Returns]
                     (startHttpServer envEmptyToken))) = 1%nat.
Proof.
  split; [reflexivity|].
  destruct (auth_gate_off_iff_token_falsy isInit envEmptyToken
              [Incoming (request GET "/mcp" None HUndefined false) Returns])
    as [Hoff _].
  destruct Hoff as [Hrouter Hwarn]; [by right|].
  split; [apply Hrouter | exact Hwarn].
Defined.

(** C2, as stated, fails: with [MCP_API_TOKEN] set to the empty string the
    gate is not installed.  A [POST /mcp] without [Authorization] header
    reaches the route (here its 400), where an enforced token would have
    refused it with 401, and the startup log holds the warning. *)
Lemma empty_token_is_not_enforced :
  requiredToken envEmptyToken = Some ""
  ∧ app isInit (requiredToken envEmptyToken) noSessions
      (request POST "/mcp" None HUndefined false) Returns
    = (noSessions, Json 400 initializationRequired)
  ∧ Json 400 initializationRequired ≠ Json 401 unauthorized
  ∧ log (startHttpServer envEmptyToken) = [WarnNoToken; Listening (FromPORT "8080")].
Proof.
  split; [reflexivity|]. split; [reflexivity|]. split; [discriminate|reflexivity].
Qed.

Lemma unknown_session_is_404_witness :
  app isInit (Some "secret") oneSession
    (request POST "/mcp" (Some "Bearer secret") (HArray ["xyz"; "abc"]) true) Returns
  = (oneSession, Json 404 unknownSession)
  ∧ app isInit None oneSession
      (request DELETE "/mcp" None (HString "xyz") false) Returns
    = (oneSession, Send 404 "Unknown session ID").
Proof.
  split.
  - apply (unknown_session_is_404 isInit (Some "secret") oneSession _ Returns "xyz");
      done.
  - apply (unknown_session_is_404 isInit None oneSession _ Returns "xyz");
      [done..|by right].
Defined.

(** C4, as stated, fails for GET and DELETE: the unknown session id is
    answered 404 with a plain-text body, not with the JSON-RPC envelope. *)
Lemma get_unknown_session_is_plain_text :
  app isInit None oneSession
    (request GET "/mcp" None (HString "xyz") false) Returns
  = (oneSession, Send 404 "Unknown session ID")
  ∧ app isInit None oneSession
      (request DELETE "/mcp" None (HString "xyz") false) Returns
    = (oneSession, Send 404 "Unknown session ID")
  ∧ Send 404 "Unknown session ID" ≠ Json 404 unknownSession.
Proof. split; [reflexivity|]. split; [reflexivity|]. discriminate. Qed.

Lemma non_initialize_without_session_is_400_witness :
  app isInit (Some "secret") oneSession
    (request POST "/mcp" (Some "Bearer secret") HUndefined false)
    (Throws "boom" false)
  = (oneSession, Json 400 initializationRequired).
Proof.
  apply (non_initialize_without_session_is_400 isInit (Some "secret") oneSession);
    done.
Defined.

(** C8, as stated, fails: with the token "secret" configured, a
    [POST /mcp] without session id, without [Authorization] header and
    with a body that is not an initialize request is refused by the token
    middleware with 401 and -32001, not with 400 and -32600. *)
Lemma unauthenticated_non_initialize_is_401 :
  truthy (getSessionId HUndefined) = false
  ∧ isInit false = false
  ∧ app isInit (Some "secret") noSessions
      (request POST "/mcp" None HUndefined false) Returns
    = (noSessions, Json 401 unauthorized)
  ∧ Json 401 unauthorized ≠ Json 400 initializationRequired.
Proof.
  split; [reflexivity|]. split; [reflexivity|]. split; [reflexivity|discriminate].
Qed.


End HttpSamples.

(** ** The session table *)

Section JsMapFacts.
Context {V : Type}.
Implicit Types (m : list (string * V)) (k : string) (v : V).

Lemma mget_mset k k' v m :
  mget k' (mset k v m) = if String.eqb k' k then Some v else mget k' m.
Proof.
  induction m as [|[k0 v0] m IH]; simpl.
  - done.
  - destruct (String.eqb_spec k k0) as [->|Hk]; simpl.
    + by destruct (String.eqb_spec k' k0).
    + rewrite IH. destruct (String.eqb_spec k' k0) as [->|]; [|done].
      destruct (String.eqb_spec k0 k); congruence.
Qed.

Lemma mget_mdelete k k' m :
  mget k' (mdelete k m) = if String.eqb k' k then None else mget k' m.
Proof.
  induction m as [|[k0 v0] m IH]; simpl.
  - by destruct (String.eqb k' k).
  - destruct (String.eqb_spec k k0) as [->|Hk]; simpl.
    + rewrite IH. destruct (String.eqb_spec k' k0); done.
    + rewrite IH. destruct (String.eqb_spec k' k0) as [->|]; [|done].
      destruct (String.eqb_spec k0 k); congruence.
Qed.

Lemma keys_mset k v m :
  keys (mset k v m) = if bool_decide (k ∈ keys m) then keys m else keys m ++ [k].
Proof.
  induction m as [|[k0 v0] m IH]; simpl.
  - done.
  - destruct (String.eqb_spec k k0) as [->|Hk]; simpl.
    + rewrite bool_decide_eq_true_2; [done|]. apply list_elem_of_here.
    + unfold keys in *. simpl. rewrite IH.
      destruct (decide (k ∈ fst <$> m)) as [Hin|Hin].
      * rewrite !bool_decide_eq_true_2; [done| |done]. by apply list_elem_of_further.
      * rewrite !bool_decide_eq_false_2; [done| |done].
        intros [?|?]%elem_of_cons; congruence.
Qed.

Lemma elem_of_keys_mdelete k k' m :
  k' ∈ keys (mdelete k m) ↔ k' ≠ k ∧ k' ∈ keys m.
Proof.
  unfold keys. induction m as [|[k0 v0] m IH]; simpl.
  - split; [by intros ?%elem_of_nil | by intros [_ ?%elem_of_nil]].
  - destruct (String.eqb_spec k k0) as [->|Hk]; simpl.
    + rewrite IH, elem_of_cons. intuition congruence.
    + rewrite !elem_of_cons, IH. intuition congruence.
Qed.

Lemma NoDup_keys_mset k v m : NoDup (keys m) → NoDup (keys (mset k v m)).
Proof.
  intros Hnd. rewrite keys_mset. case_bool_decide as Hin; [done|].
  apply NoDup_app. split; [done|]. split.
  - intros x Hx ->%list_elem_of_singleton. done.
  - apply NoDup_singleton.
Qed.

Lemma NoDup_keys_mdelete k m : NoDup (keys m) → NoDup (keys (mdelete k m)).
Proof.
  unfold keys. induction m as [|[k0 v0] m IH]; simpl; [done|].
  intros [Hnot Hnd]%NoDup_cons.
  destruct (String.eqb k k0); [by apply IH|]. simpl.
  apply NoDup_cons. split; [|by apply IH].
  intros Hin. apply Hnot. by apply (elem_of_keys_mdelete k k0 m) in Hin as [_ ?].
Qed.

(** Deleting every key that occurs leaves nothing. *)
Lemma mdelete_all (todo : list (string * V)) m :
  (∀ k, k ∈ keys m → k ∈ keys todo) →
  fold_left (λ acc e, mdelete e.1 acc) todo m = [].
Proof.
  revert m. induction todo as [|[k v] todo IH]; intros m Hsub; simpl.
  - destruct m as [|[k0 v0] m]; [done|].
    exfalso. eapply elem_of_nil, (Hsub k0). unfold keys; simpl. apply list_elem_of_here.
  - apply IH. intros k' [Hne Hin]%elem_of_keys_mdelete.
    apply Hsub in Hin. unfold keys in Hin; simpl in Hin.
    apply elem_of_cons in Hin as [?|?]; [done|]. done.
Qed.

End JsMapFacts.

Section SessionTableFacts.
Import Server.
Context {Body : Type} (isInit : Body → bool).

Implicit Types (st : State) (ev : @Event Body) (evs : list (@Event Body)).

Lemma run_snoc token evs ev st :
  run isInit token (evs ++ [ev]) st = step isInit token (run isInit token evs st) ev.
Proof. unfold run. by rewrite fold_left_app. Qed.

(** An entry seen after a step was there before it, or the step is the
    session-initialized callback for that id and that entry. *)
Lemma step_sessions_origin token st ev (sessionId : string) (session : SessionEntry) :
  mget sessionId (sessions (step isInit token st ev)) = Some session →
  mget sessionId (sessions st) = Some session
  ∨ (ev = InitializedFired session (Some sessionId) ∧ sessionId ≠ "").
Proof.
  destruct ev as [req ext|s v|v|v closed]; simpl.
  - rewrite app_sessions. by left.
  - unfold onsessioninitialized, ifTruthy.
    destruct v as [id|]; [|by left]. destruct (nonEmpty id) eqn:Hid; [|by left].
    simpl. rewrite mget_mset.
    destruct (String.eqb_spec sessionId id) as [->|_]; [|by left].
    intros [= ->]. right. split; [done|]. by apply nonEmpty_true.
  - unfold onsessionclosed, ifTruthy.
    destruct v as [id|]; [|by left]. destruct (nonEmpty id); [|by left].
    simpl. rewrite mget_mdelete. destruct (String.eqb sessionId id); [done|by left].
  - unfold onclose, ifTruthy.
    assert (∀ st', mget sessionId (sessions st') = Some session →
                   sessions st' = sessions st ∨ (∃ id, sessions st' = mdelete id (sessions st)) →
                   mget sessionId (sessions st) = Some session) as Hkeep.
    { intros st' Hget [Heq|[id Heq]]; rewrite Heq in Hget; [done|].
      rewrite mget_mdelete in Hget. by destruct (String.eqb sessionId id). }
    intros Hget. left. apply (Hkeep _ Hget).
    destruct closed, v as [id|]; simpl; try (by left);
      destruct (nonEmpty id); simpl; eauto.
Qed.

Lemma step_NoDup token st ev :
  NoDup (keys (sessions st)) → NoDup (keys (sessions (step isInit token st ev))).
Proof.
  intros Hnd. destruct ev as [req ext|s v|v|v closed]; simpl.
  - by rewrite app_sessions.
  - unfold onsessioninitialized, ifTruthy. repeat case_match; simpl; try done.
    by apply NoDup_keys_mset.
  - unfold onsessionclosed, ifTruthy. repeat case_match; simpl; try done.
    by apply NoDup_keys_mdelete.
  - unfold onclose, ifTruthy. repeat case_match; simpl; try done;
      by apply NoDup_keys_mdelete.
Qed.

Lemma run_NoDup token evs st :
  NoDup (keys (sessions st)) → NoDup (keys (sessions (run isInit token evs st))).
Proof.
  induction evs as [|ev evs IH] using rev_ind; [done|].
  intros Hnd. rewrite run_snoc. by apply step_NoDup, IH.
Qed.

Lemma run_sessions_origin token evs st (sessionId : string) (session : SessionEntry) :
  sessions st = [] →
  mget sessionId (sessions (run isInit token evs st)) = Some session →
  sessionId ≠ ""
  ∧ ∃ before after, evs = before ++ InitializedFired session (Some sessionId) :: after.
Proof.
  intros Hempty. induction evs as [|ev evs IH] using rev_ind.
  - simpl. by rewrite Hempty.
  - rewrite run_snoc. intros [Hold|[-> Hne]]%step_sessions_origin.
    + destruct (IH Hold) as (Hne & before & after & ->). split; [done|].
      exists before, (after ++ [ev]). by rewrite <- app_assoc.
    + split; [done|]. by exists evs, [].
Qed.

(** C5.  In every state the HTTP server reaches from its start, by
    requests and transport callbacks in any order, the session table holds
    each id at most once, and an entry found under an id was put there by
    a session-initialized callback that reported this id for this entry
    earlier in the run; handling a request, the initialize request that
    builds a session included, leaves the table as it was. *)
Theorem session_table_publication (env : Env) token evs :
  NoDup (keys (sessions (run isInit token evs (startHttpServer env))))
  ∧ (∀ (sessionId : string) (session : SessionEntry),
       mget sessionId (sessions (run isInit token evs (startHttpServer env)))
       = Some session →
       sessionId ≠ ""
       ∧ ∃ before after,
           evs = before ++ InitializedFired session (Some sessionId) :: after)
  ∧ (∀ st (req : @Request Body) ext,
       sessions (app isInit token st req ext).1 = sessions st).
Proof.
  split; [|split].
  - apply run_NoDup. simpl. apply NoDup_nil_2.
  - intros sessionId session. by apply run_sessions_origin.
  - intros st req ext. apply app_sessions.
Qed.

End SessionTableFacts.

Section SessionTableSamples.
Import Server Samples.

(** An initialize request followed by the callback of its transport: the
    entry is in the table after the callback, not after the request. *)
Lemma session_table_publication_witness :
  sessions (run isInit (requiredToken envSecret) [initializeRequest]
              (startHttpServer envSecret)) = []
  ∧ mget "abc"
      (sessions (run isInit (requiredToken envSecret)
                   [initializeRequest; InitializedFired entry0 (Some "abc")]
                   (startHttpServer envSecret))) = Some entry0
  ∧ ∃ before after,
      [initializeRequest; InitializedFired entry0 (Some "abc")]
      = before ++ InitializedFired entry0 (Some "abc") :: after.
Proof.
  split; [reflexivity|]. split; [reflexivity|].
  destruct (session_table_publication isInit envSecret (requiredToken envSecret)
              [initializeRequest; InitializedFired entry0 (Some "abc")])
    as (_ & Horigin & _).
  exact (proj2 (Horigin "abc" entry0 eq_refl)).
Defined.

End SessionTableSamples.

(** ** Shutdown *)

Section ShutdownFacts.
Import Shutdown.

Implicit Types (p : Process) (evs : list Event).

Lemma run_cons ev evs p : run (ev :: evs) p = run evs (step p ev).
Proof. reflexivity. Qed.

Lemma step_flagCounts p ev : flagCounts p → flagCounts (step p ev).
Proof.
  unfold flagCounts, step, shutdown, settle, processExit. intros Hp.
  destruct (exited p); [done|].
  destruct ev as [t|threw].
  - destruct (shuttingDown p); simpl; [done|]. by rewrite Hp.
  - by destruct (awaiting p).
Qed.

Lemma run_flagCounts evs p : flagCounts p → flagCounts (run evs p).
Proof.
  revert p. induction evs as [|ev evs IH]; intros p Hp; [done|].
  rewrite run_cons. by apply IH, step_flagCounts.
Qed.

(** Once set, the flag stays set. *)
Lemma step_shuttingDown p ev : shuttingDown p = true → shuttingDown (step p ev) = true.
Proof.
  unfold step, shutdown, settle, processExit. intros Hp.
  destruct (exited p); [done|].
  destruct ev as [t|threw].
  - by rewrite Hp.
  - by destruct (awaiting p).
Qed.

Lemma run_shuttingDown evs p : shuttingDown p = true → shuttingDown (run evs p) = true.
Proof.
  revert p. induction evs as [|ev evs IH]; intros p Hp; [done|].
  rewrite run_cons. by apply IH, step_shuttingDown.
Qed.

Lemma exits_with_own_code (t : Trigger) (threw : bool) :
  exited (run [Raise t; CleanupSettled threw] boot) = Some (exitCodeOf t).
Proof. by destruct t. Qed.

(** C6 (as amended).  Over any sequence of triggers and cleanup
    completions, [cleanup] is called at most once, and it is the first
    trigger that calls it; a trigger that arrives while the shutdown is
    under way exits at once, without a further call of [cleanup], with
    the exit code of that trigger itself. *)
Theorem shutdown_is_single_shot evs :
  (cleanupCalls (run evs boot) ≤ 1)%nat
  ∧ (∀ t rest, evs = Raise t :: rest → cleanupCalls (run evs boot) = 1%nat)
  ∧ (∀ t, shuttingDown (run evs boot) = true → exited (run evs boot) = None →
       exited (step (run evs boot) (Raise t)) = Some (exitCodeOf t)
       ∧ cleanupCalls (step (run evs boot) (Raise t)) = cleanupCalls (run evs boot)).
Proof.
  assert (flagCounts (run evs boot)) as Hinv by (by apply run_flagCounts).
  split; [|split].
  - rewrite Hinv. destruct (shuttingDown (run evs boot)); lia.
  - intros t rest ->. rewrite Hinv, run_cons. by rewrite run_shuttingDown.
  - intros t Hflag Hlive. unfold step, shutdown. by rewrite Hlive, Hflag.
Qed.

Lemma shutdown_is_single_shot_witness :
  exited (step (run [Raise SIGTERM] boot) (Raise SIGINT)) = Some 0
  ∧ cleanupCalls (step (run [Raise SIGTERM] boot) (Raise SIGINT)) = 1%nat.
Proof.
  destruct (shutdown_is_single_shot [Raise SIGTERM]) as (_ & _ & Hsecond).
  destruct (Hsecond SIGINT eq_refl eq_refl) as [Hexit Hcalls].
  split; [exact Hexit | exact Hcalls].
Defined.

(** C6, as stated, fails on the exit code: a fault that arrives while the
    cleanup started by SIGTERM is under way exits with 1, the code of the
    fault, where the first trigger had chosen 0; and a SIGTERM that
    arrives while the cleanup started by a fault is under way exits with
    0. *)
Lemma later_trigger_sets_the_exit_code :
  exitCodeOf SIGTERM = 0
  ∧ exited (run [Raise SIGTERM; Raise UncaughtException] boot) = Some 1
  ∧ exitCodeOf UnhandledRejection = 1
  ∧ exited (run [Raise UnhandledRejection; Raise SIGTERM] boot) = Some 0.
Proof. repeat split. Qed.

End ShutdownFacts.

(** ** Cleanup *)

Section CleanupFacts.
Import Server Shutdown.

Lemma closeSession_sessions fails sessionId session st :
  sessions (closeSession fails sessionId session st) = mdelete sessionId (sessions st).
Proof. unfold closeSession. by repeat case_match. Qed.

Lemma closeSessions_calls fails todo st calls :
  (closeSessions fails todo st calls).2 = calls ++ flat_map closingCalls todo.
Proof.
  revert st calls. induction todo as [|[sessionId session] todo IH];
    intros st calls; simpl.
  - by rewrite app_nil_r.
  - by rewrite IH, <- app_assoc.
Qed.

Lemma closeSessions_sessions fails todo st calls :
  sessions (closeSessions fails todo st calls).1
  = fold_left (λ acc e, mdelete e.1 acc) todo (sessions st).
Proof.
  revert st calls. induction todo as [|[sessionId session] todo IH];
    intros st calls; simpl; [done|].
  by rewrite IH, closeSession_sessions.
Qed.

(** C7.  Whatever close call fails, and with which message, the HTTP
    cleanup calls, for each session of the table in turn, [close] on its
    transport and then [close] on its engine, and after all of them
    [close] on the listener; the table is then empty.  The stdio cleanup
    closes the stdio transport and then the engine.  A shutdown that ran
    its cleanup, resolved or thrown, exits with 0 for SIGTERM and SIGINT
    and with 1 for an uncaught exception or an unhandled rejection. *)
Theorem cleanup_closes_every_session
    (fails : Call → option string) (st : State) (logged : list LogEntry)
    (t : Trigger) (threw : bool) :
  (httpCleanup fails st).1.2 = flat_map closingCalls (sessions st) ++ [ListenerClose]
  ∧ sessions (httpCleanup fails st).1.1 = []
  ∧ (stdioCleanup fails logged).1.2
    = [TransportClose (transport stdioSession); ServerClose (server stdioSession)]
  ∧ exited (run [Raise t; CleanupSettled threw] boot) = Some (exitCodeOf t)
  ∧ exitCodeOf SIGTERM = 0 ∧ exitCodeOf SIGINT = 0
  ∧ exitCodeOf UncaughtException = 1 ∧ exitCodeOf UnhandledRejection = 1.
Proof.
  unfold httpCleanup.
  destruct (closeSessions fails (sessions (logToFile ShuttingDownHttp st))
              (logToFile ShuttingDownHttp st) []) as [st1 calls] eqn:Hloop.
  pose proof (closeSessions_calls fails (sessions (logToFile ShuttingDownHttp st))
                (logToFile ShuttingDownHttp st) []) as Hcalls.
  pose proof (closeSessions_sessions fails (sessions (logToFile ShuttingDownHttp st))
                (logToFile ShuttingDownHttp st) []) as Htable.
  rewrite Hloop in Hcalls, Htable. simpl in Hcalls, Htable. simpl.
  split; [by rewrite Hcalls|].
  split; [rewrite Htable; by apply mdelete_all|].
  split; [done|]. split; [by destruct t|]. done.
Qed.

(** SIGTERM with three sessions, where closing the transport of the first
    and the engine of the second throws: all six closes are called, then
    the listener's, both failures are logged, the table is empty and the
    process exits with 0. *)
Lemma cleanup_closes_every_session_witness :
  httpCleanup Samples.twoFailures Samples.threeSessions
  = ({| sessions := [];
        allocated := 6;
        log := [ShuttingDownHttp;
                ErrClosingTransportFor "a" "stuck";
                ErrClosingServerFor "b" "stuck"] |},
     [TransportClose 1; ServerClose 0; TransportClose 3; ServerClose 2;
      TransportClose 5; ServerClose 4; ListenerClose],
     Resolved ())
  ∧ (httpCleanup Samples.twoFailures Samples.threeSessions).1.2
    = flat_map closingCalls (sessions Samples.threeSessions) ++ [ListenerClose]
  ∧ exited (run [Raise SIGTERM; CleanupSettled false] boot) = Some 0.
Proof.
  split; [reflexivity|].
  destruct (cleanup_closes_every_session Samples.twoFailures Samples.threeSessions
              [] SIGTERM false) as (Hcalls & _ & _ & Hexit & _).
  split; [exact Hcalls | exact Hexit].
Defined.

End CleanupFacts.

(** ** Transport selection *)

Section MainFacts.
Import Server Main.

(** HTTP is selected exactly on a non-empty [PORT]; the port is then
    taken from [PORT], and [MCP_PORT] is not looked at. *)
Lemma selectTransport_Http (env : Env) :
  selectTransport env = Http ↔ ∃ p, env !! "PORT" = Some p ∧ p ≠ "".
Proof.
  unfold selectTransport. destruct (env !! "PORT") as [p|]; simpl.
  - destruct (nonEmpty p) eqn:Hp; split.
    + intros _. exists p. split; [done|]. by apply nonEmpty_true.
    + done.
    + done.
    + intros (p' & [= <-] & Hne). apply nonEmpty_true in Hne. congruence.
  - split; [done|]. by intros (p & ? & _).
Qed.

Lemma http_port_is_PORT (env : Env) :
  selectTransport env = Http → ∃ p, portSource env = FromPORT p.
Proof.
  intros (p & Hp & _)%selectTransport_Http. exists p. unfold portSource. by rewrite Hp.
Qed.

(** C3 at the failing input: with [MCP_PORT] set and [PORT] unset, [main]
    starts the stdio transport, although the port resolution of
    [startHttpServer] would have taken the port from [MCP_PORT]. *)
Theorem mcp_port_alone_starts_stdio :
  Samples.envOnlyMcpPort !! "MCP_PORT" = Some "3000"
  ∧ Samples.envOnlyMcpPort !! "PORT" = None
  ∧ main Samples.envOnlyMcpPort true true = Running Stdio
  ∧ portSource Samples.envOnlyMcpPort = FromMCP_PORT "3000".
Proof. repeat split. Qed.

End MainFacts.

(** * Further properties of the gateway *)

(** ** Routing *)

Section RoutingFacts.
Import Server.
Context {Body : Type} (isInit : Body → bool).

Implicit Types (st : State) (req : @Request Body) (ext : Forwarding).

Ltac route_cases :=
  unfold app, router, getMcp, deleteMcp, sessionRoute, postMcp, forwardPost,
    createSession, ifTruthy;
  repeat case_match; simplify_eq/=; try done.

Lemma router_never_401 st req ext payload :
  (router isInit st req ext).2 ≠ Json 401 payload.
Proof. route_cases. Qed.

(** What the three [/mcp] handlers do with a session id found in the
    table. *)
Lemma router_known_session st req ext (sessionId : string) (session : SessionEntry) :
  path req = "/mcp" →
  getSessionId (mcpSessionId req) = Some sessionId →
  sessionId ≠ "" →
  mget sessionId (sessions st) = Some session →
  router isInit st req ext
  = match method req, ext with
    | OTHER, _ => (st, Unrouted)
    | _, Returns => (st, ByTransport session)
    | POST, Throws m sent =>
        (logToFile (ErrPost m) st,
         if sent then ByTransport session else Json 500 internalError)
    | GET, Throws m sent =>
        (logToFile (ErrGet sessionId m) st,
         if sent then ByTransport session else Send 500 "Internal server error")
    | DELETE, Throws m sent =>
        (logToFile (ErrDelete sessionId m) st,
         if sent then ByTransport session else Send 500 "Internal server error")
    end.
Proof.
  intros Hp Hsid Hne Hget.
  unfold router, getMcp, deleteMcp, sessionRoute, postMcp, forwardPost.
  rewrite Hp. simpl. rewrite !(ifTruthy_true _ _ _ _ Hsid Hne).
  unfold ensureSession. rewrite Hget. by destruct (method req), ext.
Qed.

(** What they do with a session id the table does not hold. *)
Lemma router_unknown_session st req ext (sessionId : string) :
  path req = "/mcp" →
  getSessionId (mcpSessionId req) = Some sessionId →
  sessionId ≠ "" →
  mget sessionId (sessions st) = None →
  router isInit st req ext
  = (st, match method req with
         | POST => Json 404 unknownSession
         | GET | DELETE => Send 404 "Unknown session ID"
         | OTHER => Unrouted
         end).
Proof.
  intros Hp Hsid Hne Hget.
  unfold router, getMcp, deleteMcp, sessionRoute, postMcp.
  rewrite Hp. simpl. rewrite !(ifTruthy_true _ _ _ _ Hsid Hne).
  unfold ensureSession. rewrite Hget. by destruct (method req).
Qed.

(** X1.  A POST, GET or DELETE on [/mcp] that got past the token
    middleware and bears the id of a session of the table is handed to
    the transport of that session, and when that call returns the handler
    itself has written nothing: no table entry, no log line, no new
    object.  (What the transport's callbacks do during the call is theirs,
    see [step].) *)
Theorem known_session_is_forwarded token st req
    (sessionId : string) (session : SessionEntry) :
  admitted token req = true →
  path req = "/mcp" →
  method req ≠ OTHER →
  getSessionId (mcpSessionId req) = Some sessionId →
  sessionId ≠ "" →
  mget sessionId (sessions st) = Some session →
  app isInit token st req Returns = (st, ByTransport session).
Proof.
  intros Hadm Hp Hm Hsid Hne Hget.
  rewrite (app_admitted _ _ _ _ _ Hadm),
    (router_known_session _ _ _ _ _ Hp Hsid Hne Hget).
  by destruct (method req).
Qed.

(** X2.  A GET or DELETE on [/mcp] past the token middleware without a
    truthy session id is answered 400 with the plain text "Missing
    session ID", whatever the body and the table; the state is
    untouched. *)
Theorem missing_session_id_is_400 token st req ext :
  admitted token req = true →
  path req = "/mcp" →
  method req = GET ∨ method req = DELETE →
  truthy (getSessionId (mcpSessionId req)) = false →
  app isInit token st req ext = (st, Send 400 "Missing session ID").
Proof.
  intros Hadm Hp Hm Hsid. rewrite (app_admitted _ _ _ _ _ Hadm).
  unfold router, getMcp, deleteMcp, sessionRoute. rewrite Hp. simpl.
  rewrite !(ifTruthy_false _ _ _ Hsid). by destruct Hm as [-> | ->].
Qed.

(** X3.  When forwarding to a known session throws, the handler logs one
    line and touches neither the table nor the allocation.  If no
    response was begun it answers 500, with the JSON-RPC error -32603 for
    POST and the plain text "Internal server error" for GET and DELETE;
    if the response was begun it is left to the transport. *)
Theorem forwarding_fault_is_caught token st req
    (sessionId : string) (session : SessionEntry) (m : string) (sent : bool) :
  admitted token req = true →
  path req = "/mcp" →
  method req ≠ OTHER →
  getSessionId (mcpSessionId req) = Some sessionId →
  sessionId ≠ "" →
  mget sessionId (sessions st) = Some session →
  sessions (app isInit token st req (Throws m sent)).1 = sessions st
  ∧ allocated (app isInit token st req (Throws m sent)).1 = allocated st
  ∧ log (app isInit token st req (Throws m sent)).1
    = log st ++ [match method req with
                 | POST => ErrPost m
                 | GET => ErrGet sessionId m
                 | _ => ErrDelete sessionId m
                 end]
  ∧ (app isInit token st req (Throws m sent)).2
    = if sent then ByTransport session
      else match method req with
           | POST => Json 500 internalError
           | _ => Send 500 "Internal server error"
           end.
Proof.
  intros Hadm Hp Hm Hsid Hne Hget.
  rewrite (app_admitted _ _ _ _ _ Hadm),
    (router_known_session _ _ _ _ _ Hp Hsid Hne Hget).
  by destruct (method req).
Qed.

Lemma app_initialize token st req ext :
  admitted token req = true →
  method req = POST →
  path req = "/mcp" →
  truthy (getSessionId (mcpSessionId req)) = false →
  isInit (body req) = true →
  app isInit token st req ext
  = forwardPost (createSession st).1 (createSession st).2 ext.
Proof.
  intros Hadm Hm Hp Hsid Hinit.
  by rewrite (app_admitted _ _ _ _ _ Hadm), (router_post_mcp _ _ _ _ Hm Hp),
    (postMcp_no_session _ _ _ _ Hsid), Hinit.
Qed.

(** X4.  An initialize POST on [/mcp] past the token middleware and
    without a truthy session id builds a new engine and a new transport,
    the next two objects of the process, and forwards to them; the
    session table is as before, so the new session cannot be looked up
    until its transport reports an id.  If the forwarding throws before a
    response was begun the answer is 500 with -32603. *)
Theorem initialize_builds_unpublished_session token st req ext :
  admitted token req = true →
  method req = POST →
  path req = "/mcp" →
  truthy (getSessionId (mcpSessionId req)) = false →
  isInit (body req) = true →
  sessions (app isInit token st req ext).1 = sessions st
  ∧ allocated (app isInit token st req ext).1 = S (S (allocated st))
  ∧ (app isInit token st req ext).2
    = match ext with
      | Throws _ false => Json 500 internalError
      | _ => ByTransport {| server := allocated st; transport := S (allocated st) |}
      end.
Proof.
  intros Hadm Hm Hp Hsid Hinit.
  rewrite (app_initialize _ _ _ _ Hadm Hm Hp Hsid Hinit).
  unfold forwardPost. destruct ext as [|m [|]]; done.
Qed.

(** X5.  Objects are built by one kind of request only.  If handling
    a request builds an object, the request got past the token
    middleware, is a POST, has no truthy session id and has an initialize
    body; and every such request on the path [/mcp] does build one.  A
    refused request, a GET or DELETE and a request that names a session
    build nothing. *)
Theorem only_initialize_allocates token st req ext :
  (allocated (app isInit token st req ext).1 ≠ allocated st →
     admitted token req = true
     ∧ method req = POST
     ∧ truthy (getSessionId (mcpSessionId req)) = false
     ∧ isInit (body req) = true)
  ∧ (admitted token req = true →
     method req = POST →
     path req = "/mcp" →
     truthy (getSessionId (mcpSessionId req)) = false →
     isInit (body req) = true →
     allocated (app isInit token st req ext).1 ≠ allocated st).
Proof.
  split.
  - destruct (admitted token req) eqn:Hadm.
    + rewrite (app_admitted _ _ _ _ _ Hadm). unfold router.
      destruct (method req) eqn:Hm; try (repeat case_match; simpl; done).
      * unfold getMcp, sessionRoute, ifTruthy. repeat case_match; simpl; done.
      * destruct (String.eqb_spec (path req) "/mcp") as [Hp|]; [|done].
        unfold postMcp, ifTruthy, forwardPost, createSession.
        destruct (getSessionId (mcpSessionId req)) as [id|] eqn:Hsid; simpl.
        -- destruct (nonEmpty id) eqn:Hid;
             destruct (isInit (body req)) eqn:Hinit;
             repeat case_match; simpl; done.
        -- destruct (isInit (body req)) eqn:Hinit; repeat case_match; simpl; done.
      * unfold deleteMcp, sessionRoute, ifTruthy. repeat case_match; simpl; done.
    + by rewrite (app_refused _ _ _ _ _ Hadm).
  - intros Hadm Hm Hp Hsid Hinit.
    rewrite (app_initialize _ _ _ _ Hadm Hm Hp Hsid Hinit).
    unfold forwardPost. destruct ext; simpl; lia.
Qed.

End RoutingFacts.

(** ** Session lifecycle *)

Section LifecycleFacts.
Import Server.
Context {Body : Type} (isInit : Body → bool).

Implicit Types (st : State) (req : @Request Body) (ext : Forwarding)
  (evs : list (@Event Body)).

Lemma admitted_false token req :
  admitted token req = false
  ↔ ∃ t, token = Some t ∧ t ≠ "" ∧ authorization req ≠ Some ("Bearer " +:+ t).
Proof.
  unfold admitted, ifTruthy. destruct token as [t|].
  - destruct (nonEmpty t) eqn:Ht.
    + rewrite bearerMatches_false. split.
      * intros Hauth. exists t. split; [done|]. split; [|done]. by apply nonEmpty_true.
      * by intros (t' & [= <-] & _ & Hauth).
    + split; [done|]. intros (t' & [= <-] & Hne & _).
      apply nonEmpty_true in Hne. congruence.
  - split; [done|]. by intros (t & ? & _).
Qed.

(** X6.  For a request that reaches the token middleware (one that
    [express.json] and [cors], registered ahead of it, have passed on),
    the answer of the middleware and the routes behind it is the 401 with
    -32001 if and only if a non-empty token is configured and the
    [Authorization] header is not exactly [Bearer <token>]; no route of
    this file answers 401 by itself. *)
Theorem unauthorized_iff_bearer_mismatch token st req ext :
  (app isInit token st req ext).2 = Json 401 unauthorized
  ↔ ∃ t, token = Some t ∧ t ≠ "" ∧ authorization req ≠ Some ("Bearer " +:+ t).
Proof.
  rewrite <- admitted_false. destruct (admitted token req) eqn:Hadm.
  - rewrite (app_admitted _ _ _ _ _ Hadm). split; [|done].
    intros Hr. by apply router_never_401 in Hr.
  - by rewrite (app_refused _ _ _ _ _ Hadm).
Qed.

Lemma mdelete_absent {V} (k : string) (m : list (string * V)) :
  mget k m = None → mdelete k m = m.
Proof.
  induction m as [|[k0 v0] m IH]; simpl; [done|].
  destruct (String.eqb k k0); [done|]. intros Hget. by rewrite IH.
Qed.

Lemma length_mset {V} (k : string) (v : V) (m : list (string * V)) :
  (length (mset k v m) ≤ S (length m))%nat.
Proof.
  induction m as [|[k0 v0] m IH]; simpl; [lia|].
  destruct (String.eqb k k0); simpl; lia.
Qed.

Lemma length_mdelete {V} (k : string) (m : list (string * V)) :
  (length (mdelete k m) ≤ length m)%nat.
Proof.
  induction m as [|[k0 v0] m IH]; simpl; [lia|].
  destruct (String.eqb k k0); simpl; lia.
Qed.

(** X7.  Once the transport of a session has reported a non-empty id,
    the table gives that session under that id and gives what it gave
    before under every other id, and a POST, GET or DELETE on [/mcp] that
    bears the id (past the token middleware) is forwarded to that
    session. *)
Theorem published_session_is_routed token st req
    (sessionId : string) (session : SessionEntry) :
  sessionId ≠ "" →
  admitted token req = true →
  path req = "/mcp" →
  method req ≠ OTHER →
  getSessionId (mcpSessionId req) = Some sessionId →
  ensureSession (onsessioninitialized session (Some sessionId) st) sessionId
  = Some session
  ∧ (∀ other, other ≠ sessionId →
       ensureSession (onsessioninitialized session (Some sessionId) st) other
       = ensureSession st other)
  ∧ app isInit token (onsessioninitialized session (Some sessionId) st) req Returns
    = (onsessioninitialized session (Some sessionId) st, ByTransport session).
Proof.
  intros Hne Hadm Hp Hm Hsid.
  assert (∀ other,
            ensureSession (onsessioninitialized session (Some sessionId) st) other
            = if String.eqb other sessionId then Some session
              else ensureSession st other) as Hlookup.
  { intros other. unfold onsessioninitialized, ifTruthy, ensureSession.
    pose proof Hne as Hne'. apply nonEmpty_true in Hne' as ->. simpl.
    apply mget_mset. }
  split; [|split].
  - by rewrite Hlookup, String.eqb_refl.
  - intros other Hother. rewrite Hlookup.
    by destruct (String.eqb_spec other sessionId).
  - rewrite (app_admitted _ _ _ _ _ Hadm),
      (router_known_session _ _ _ _ sessionId session Hp Hsid Hne).
    + by destruct (method req).
    + specialize (Hlookup sessionId). by rewrite String.eqb_refl in Hlookup.
Qed.

(** X8.  Once a session was closed, by the session-closed callback or by
    the [onclose] of its transport, its id is unknown: lookup finds
    nothing under it and what it found before under every other id, and
    a POST, GET or DELETE on [/mcp] that bears the id is answered 404
    (the error -32000 for POST, plain text for GET and DELETE), never
    forwarded. *)
Theorem closed_session_is_unknown token st st' req ext
    (sessionId : string) (closed : outcome ()) :
  sessionId ≠ "" →
  st' = onsessionclosed (Some sessionId) st
  ∨ st' = onclose (Some sessionId) closed st →
  admitted token req = true →
  path req = "/mcp" →
  method req ≠ OTHER →
  getSessionId (mcpSessionId req) = Some sessionId →
  ensureSession st' sessionId = None
  ∧ (∀ other, other ≠ sessionId → ensureSession st' other = ensureSession st other)
  ∧ app isInit token st' req ext
    = (st', match method req with
            | POST => Json 404 unknownSession
            | _ => Send 404 "Unknown session ID"
            end).
Proof.
  intros Hne Hst' Hadm Hp Hm Hsid.
  assert (sessions st' = mdelete sessionId (sessions st)) as Htable.
  { pose proof Hne as Hne'. apply nonEmpty_true in Hne'.
    destruct Hst' as [-> | ->].
    - unfold onsessionclosed, ifTruthy. by rewrite Hne'.
    - unfold onclose, ifTruthy. rewrite Hne'. by destruct closed. }
  assert (∀ other, ensureSession st' other
                   = if String.eqb other sessionId then None
                     else ensureSession st other) as Hlookup.
  { intros other. unfold ensureSession. rewrite Htable. apply mget_mdelete. }
  assert (ensureSession st' sessionId = None) as Hgone.
  { by rewrite Hlookup, String.eqb_refl. }
  split; [done|]. split.
  - intros other Hother. rewrite Hlookup.
    by destruct (String.eqb_spec other sessionId).
  - rewrite (app_admitted _ _ _ _ _ Hadm),
      (router_unknown_session _ _ _ _ sessionId Hp Hsid Hne Hgone).
    by destruct (method req).
Qed.

(** X9.  Closing an id the table does not hold leaves the table as it
    is, for both closing callbacks: closing is idempotent. *)
Theorem closing_absent_session_keeps_table st
    (sessionId : option string) (closed : outcome ()) :
  (∀ id, sessionId = Some id → mget id (sessions st) = None) →
  sessions (onsessionclosed sessionId st) = sessions st
  ∧ sessions (onclose sessionId closed st) = sessions st.
Proof.
  intros Habsent. unfold onsessionclosed, onclose, ifTruthy.
  destruct sessionId as [id|]; [|by destruct closed].
  specialize (Habsent id eq_refl).
  destruct (nonEmpty id), closed; simpl; by rewrite ?mdelete_absent.
Qed.

Lemma step_table_size token st (ev : @Event Body) :
  (length (sessions (step isInit token st ev))
   ≤ length (sessions st) + (if publishes ev then 1 else 0))%nat.
Proof.
  destruct ev as [req ext|s v|v|v closed]; simpl.
  - rewrite app_sessions. lia.
  - unfold onsessioninitialized, ifTruthy, truthy.
    destruct v as [id|]; [|lia]. destruct (nonEmpty id); simpl; [|lia].
    pose proof (length_mset id s (sessions st)). lia.
  - unfold onsessionclosed, ifTruthy.
    destruct v as [id|]; [|lia]. destruct (nonEmpty id); simpl; [|lia].
    pose proof (length_mdelete id (sessions st)). lia.
  - unfold onclose, ifTruthy.
    destruct v as [id|], closed; simpl; try lia;
      destruct (nonEmpty id); simpl; try lia;
      pose proof (length_mdelete id (sessions st)); lia.
Qed.

(** X12.  The table of a server never holds more sessions than
    session-initialized callbacks with a truthy id have fired since its
    start; requests and closing callbacks add none. *)
Theorem table_bounded_by_publications (env : Env) token evs :
  (length (sessions (run isInit token evs (startHttpServer env)))
   ≤ length (List.filter publishes evs))%nat.
Proof.
  induction evs as [|ev evs IH] using rev_ind; [done|].
  rewrite run_snoc, List.filter_app, length_app.
  pose proof (step_table_size token (run isInit token evs (startHttpServer env)) ev).
  simpl. destruct (publishes ev); simpl in *; lia.
Qed.

End LifecycleFacts.

(** ** The shutdown handlers over whole runs *)

Section ShutdownRuns.
Import Shutdown.

Implicit Types (p : Process) (evs : list Event).

Lemma shutdown_run_snoc evs ev p : run (evs ++ [ev]) p = step (run evs p) ev.
Proof. unfold run. by rewrite fold_left_app. Qed.

Lemma shutdown_run_app evs1 evs2 p : run (evs1 ++ evs2) p = run evs2 (run evs1 p).
Proof. unfold run. by rewrite fold_left_app. Qed.

(** Nothing runs after [process.exit]. *)
Lemma exit_final_aux evs p (code : Z) :
  exited p = Some code → run evs p = p.
Proof.
  intros Hexit. induction evs as [|ev evs IH] using rev_ind; [done|].
  rewrite shutdown_run_snoc, IH. unfold step. by rewrite Hexit.
Qed.

Lemma run_codesRaised evs : codesRaised evs (run evs boot).
Proof.
  induction evs as [|ev evs IH] using rev_ind.
  - intros code [?|?]; done.
  - rewrite shutdown_run_snoc. intros code Hcode.
    assert (∀ c, awaiting (run evs boot) = Some c ∨ exited (run evs boot) = Some c →
                 ∃ t, Raise t ∈ evs ++ [ev] ∧ c = exitCodeOf t) as Hold.
    { intros c Hc. destruct (IH c Hc) as (t & Hin & ->).
      exists t. split; [|done]. apply elem_of_app. by left. }
    clear IH. destruct (run evs boot) as [flag calls w e].
    unfold step, shutdown, settle, processExit in Hcode. simpl in *.
    destruct e as [c0|]; [by apply Hold|].
    destruct ev as [t|threw].
    + assert (∃ t', Raise t' ∈ evs ++ [Raise t] ∧ exitCodeOf t = exitCodeOf t')
        as Hnew.
      { exists t. split; [|done]. apply elem_of_app. right. apply list_elem_of_here. }
      destruct flag; simpl in Hcode.
      * destruct Hcode as [Hc|[= <-]]; [|done]. apply Hold. by left.
      * destruct Hcode as [[= <-]|Hc]; done.
    + destruct w as [c1|]; simpl in Hcode.
      * apply Hold. left. destruct Hcode as [Hc|Hc]; congruence.
      * by apply Hold.
Qed.

(** X14.  The process exits through the handlers only after a trigger,
    and with the code of one of the triggers raised: 0 if it was a
    signal, 1 if it was a fault.  Without a trigger it does not exit,
    and no other exit code is ever used. *)
Theorem exit_needs_a_trigger evs (code : Z) :
  exited (run evs boot) = Some code →
  (∃ t, Raise t ∈ evs ∧ code = exitCodeOf t) ∧ (code = 0 ∨ code = 1).
Proof.
  intros Hexit.
  destruct (run_codesRaised evs code (or_intror Hexit)) as (t & Hin & ->).
  split; [by exists t|]. destruct t; simpl; auto.
Qed.

Lemma step_flagWaits p ev : flagWaits p → flagWaits (step p ev).
Proof.
  destruct p as [flag calls [w|] [e|]], ev as [t|threw], flag;
    unfold flagWaits, step, shutdown, settle, processExit; simpl;
    intros [[H1 H2] H3]; (split; [split|]); intros; eauto; try done.
Qed.

Lemma run_flagWaits evs : flagWaits (run evs boot).
Proof.
  induction evs as [|ev evs IH] using rev_ind.
  - unfold flagWaits. simpl. split; [split|]; intros; done.
  - rewrite shutdown_run_snoc. by apply step_flagWaits.
Qed.

Lemma run_flag_iff_raised evs :
  shuttingDown (run evs boot) = true ↔ ∃ t, Raise t ∈ evs.
Proof.
  induction evs as [|ev evs IH] using rev_ind.
  - split; [done|]. by intros (t & ?%elem_of_nil).
  - rewrite shutdown_run_snoc. split.
    + intros Hflag. destruct ev as [t|threw].
      * exists t. apply elem_of_app. right. apply list_elem_of_here.
      * assert (shuttingDown (run evs boot) = true) as Hold.
        { revert Hflag. unfold step, settle, processExit.
          by repeat case_match. }
        apply IH in Hold as (t & Hin). exists t. apply elem_of_app. by left.
    + intros (t & [Hin|Hin]%elem_of_app).
      * apply step_shuttingDown, IH. by exists t.
      * apply list_elem_of_singleton in Hin as <-.
        pose proof (run_flagWaits evs) as [_ Hexit].
        unfold step, shutdown, processExit.
        destruct (exited (run evs boot)) as [c|] eqn:He.
        -- apply Hexit. by exists c.
        -- by destruct (shuttingDown (run evs boot)).
Qed.

(** X15.  [cleanup] is called once if a trigger was raised, however many
    were, and not at all otherwise: a cleanup completion alone starts
    nothing. *)
Theorem cleanup_runs_iff_triggered evs :
  ((∃ t, Raise t ∈ evs) → cleanupCalls (run evs boot) = 1%nat)
  ∧ ((∀ t, Raise t ∉ evs) → cleanupCalls (run evs boot) = 0%nat).
Proof.
  rewrite (run_flagCounts evs boot eq_refl).
  destruct (shuttingDown (run evs boot)) eqn:Hflag.
  - split; [done|]. intros Hnone.
    apply run_flag_iff_raised in Hflag as (t & Hin). by apply Hnone in Hin.
  - split; [|done]. intros Hraised%run_flag_iff_raised. congruence.
Qed.

(** X16.  A shutdown whose cleanup completes ends the process: once a
    trigger was raised and, later, a cleanup completion arrived, resolved
    or thrown, the process has exited, whatever else happened around
    them. *)
Theorem settled_shutdown_exits evs1 evs2 evs3 (t : Trigger) (threw : bool) :
  is_Some (exited (run (evs1 ++ Raise t :: evs2 ++ CleanupSettled threw :: evs3) boot)).
Proof.
  replace (evs1 ++ Raise t :: evs2 ++ CleanupSettled threw :: evs3)
    with (((evs1 ++ Raise t :: evs2) ++ [CleanupSettled threw]) ++ evs3)
    by (rewrite <- !app_assoc; done).
  rewrite shutdown_run_app, shutdown_run_snoc.
  assert (is_Some (exited (step (run (evs1 ++ Raise t :: evs2) boot)
                             (CleanupSettled threw)))) as [code Hcode].
  { pose proof (run_flagWaits (evs1 ++ Raise t :: evs2)) as [[_ Hwait] _].
    assert (shuttingDown (run (evs1 ++ Raise t :: evs2) boot) = true) as Hflag.
    { apply run_flag_iff_raised. exists t. apply elem_of_app. right.
      apply list_elem_of_here. }
    destruct (Hwait Hflag) as [c Hc].
    unfold step, settle, processExit.
    destruct (exited (run (evs1 ++ Raise t :: evs2) boot)) as [c0|] eqn:He.
    - rewrite He. by exists c0.
    - rewrite Hc. by exists c. }
  rewrite (exit_final_aux _ _ _ Hcode). by exists code.
Qed.

End ShutdownRuns.

(** ** The cleanup closures and their faults *)

Section CleanupFaults.
Import Server.

Implicit Types (st : State) (fails : Call → option string).

Lemma closeSession_grows fails (sessionId : string) (session : SessionEntry) st :
  allocated (closeSession fails sessionId session st) = allocated st
  ∧ log st `prefix_of` log (closeSession fails sessionId session st)
  ∧ length (log (closeSession fails sessionId session st))
    = (length (log st)
       + length (List.filter (throwsOn fails) (closingCalls (sessionId, session))))%nat.
Proof.
  unfold closeSession, throwsOn. simpl.
  destruct (fails (TransportClose (transport session))),
    (fails (ServerClose (server session))); simpl;
    (split; [done|]); (split; [|rewrite ?length_app; simpl; lia]).
  - rewrite <- app_assoc. by apply prefix_app_r.
  - by apply prefix_app_r.
  - by apply prefix_app_r.
  - done.
Qed.

Lemma closeSessions_grows fails (todo : list (string * SessionEntry)) st calls :
  allocated (closeSessions fails todo st calls).1 = allocated st
  ∧ log st `prefix_of` log (closeSessions fails todo st calls).1
  ∧ length (log (closeSessions fails todo st calls).1)
    = (length (log st)
       + length (List.filter (throwsOn fails) (flat_map closingCalls todo)))%nat.
Proof.
  revert st calls. induction todo as [|[sessionId session] todo IH];
    intros st calls.
  - simpl. split; [done|]. split; [done|lia].
  - cbn [closeSessions flat_map].
    destruct (IH (closeSession fails sessionId session st)
                (calls ++ [TransportClose (transport session);
                           ServerClose (server session)]))
      as (Ha & Hp & Hl).
    destruct (closeSession_grows fails sessionId session st) as (Ha' & Hp' & Hl').
    split; [congruence|]. split; [by etrans|].
    rewrite Hl, Hl', List.filter_app, length_app. lia.
Qed.

(** X17.  The HTTP cleanup swallows the faults of the session closes: it
    throws if and only if closing the listener fails, then with the
    listener's message.  It builds no object, keeps the log written so
    far and appends the shutdown line to it, then one line for each
    close of a transport or engine that threw, and no other line. *)
Theorem http_cleanup_swallows_session_faults fails st :
  (∀ m, (httpCleanup fails st).2 = Rejected m ↔ fails ListenerClose = Some m)
  ∧ allocated (httpCleanup fails st).1.1 = allocated st
  ∧ (log st ++ [ShuttingDownHttp]) `prefix_of` log (httpCleanup fails st).1.1
  ∧ length (log (httpCleanup fails st).1.1)
    = (length (log st) + 1
       + length (List.filter (throwsOn fails)
                   (flat_map closingCalls (sessions st))))%nat.
Proof.
  unfold httpCleanup.
  destruct (closeSessions_grows fails (sessions (logToFile ShuttingDownHttp st))
              (logToFile ShuttingDownHttp st) []) as (Ha & Hp & Hl).
  destruct (closeSessions fails (sessions (logToFile ShuttingDownHttp st))
              (logToFile ShuttingDownHttp st) []) as [st1 calls].
  simpl in *. split; [|split; [done|split; [done|]]].
  - intros m. destruct (fails ListenerClose); split; congruence.
  - rewrite Hl, length_app. simpl. lia.
Qed.

(** X18.  The stdio cleanup never throws: whichever of its two closes
    fail, it resolves, keeps the log written so far and appends one line
    for each close that threw. *)
Theorem stdio_cleanup_never_throws fails (logged : list LogEntry) :
  (stdioCleanup fails logged).2 = Resolved ()
  ∧ logged `prefix_of` (stdioCleanup fails logged).1.1
  ∧ length (stdioCleanup fails logged).1.1
    = (length logged
       + length (List.filter (throwsOn fails) (stdioCleanup fails logged).1.2))%nat.
Proof.
  unfold stdioCleanup, throwsOn. simpl.
  destruct (fails (TransportClose 1)), (fails (ServerClose 0)); simpl;
    (split; [done|]); (split; [|rewrite ?length_app; simpl; lia]).
  - rewrite <- app_assoc. by apply prefix_app_r.
  - by apply prefix_app_r.
  - by apply prefix_app_r.
  - done.
Qed.

End CleanupFaults.

(** ** Startup *)

Section StartupFacts.
Import Server Main.

(** X19.  [main] runs the HTTP transport if and only if
    [WORDPRESS_API_URL] is non-empty, the WordPress client and the server
    started, and [PORT] is set to a non-empty text; the port is then read
    from [PORT], so neither [MCP_PORT] nor the default 8080 is ever the
    port of a server started by [main]. *)
Theorem http_needs_nonempty_PORT (env : Env) (initOk startOk : bool) :
  (main env initOk startOk = Running Http
   ↔ truthy (env !! "WORDPRESS_API_URL") = true
     ∧ initOk = true ∧ startOk = true
     ∧ ∃ p, env !! "PORT" = Some p ∧ p ≠ "")
  ∧ (main env initOk startOk = Running Http →
       ∃ p, p ≠ "" ∧ portSource env = FromPORT p).
Proof.
  assert (main env initOk startOk = Running Http
          ↔ truthy (env !! "WORDPRESS_API_URL") = true
            ∧ initOk = true ∧ startOk = true ∧ selectTransport env = Http) as Hmain.
  { unfold main.
    destruct (truthy (env !! "WORDPRESS_API_URL")), initOk, startOk; simpl;
      split; try done; try (by intros (? & ? & ? & ?)).
    - intros [= ->]. done.
    - by intros (_ & _ & _ & ->). }
  split.
  - rewrite Hmain, selectTransport_Http. done.
  - intros (_ & _ & _ & (p & Hp & Hne)%selectTransport_Http)%Hmain.
    exists p. split; [done|]. unfold portSource. by rewrite Hp.
Qed.

(** X20.  Startup fails fast and always with code 1: [main] exits if and
    only if [WORDPRESS_API_URL] is unset or empty, or the WordPress client
    does not initialize, or the selected server does not start;
    otherwise it runs the transport the [PORT] test selects. *)
Theorem startup_failure_exits_1 (env : Env) (initOk startOk : bool) :
  (∀ code, main env initOk startOk = Exit code → code = 1)
  ∧ (main env initOk startOk = Exit 1
     ↔ truthy (env !! "WORDPRESS_API_URL") = false
       ∨ initOk = false ∨ startOk = false)
  ∧ (∀ t, main env initOk startOk = Running t → t = selectTransport env).
Proof.
  unfold main.
  destruct (truthy (env !! "WORDPRESS_API_URL")), initOk, startOk; simpl;
    (split; [intros code ?; congruence|]);
    (split; [split; [intros ?; try discriminate; auto
                    |intros [?|[?|?]]; congruence]
            |intros t ?; congruence]).
Qed.

End StartupFacts.

(** ** The tool adapter, further *)

Section ToolAdapterFurther.
Import ToolAdapter.

Lemma retag_idempotent item : retag (retag item) = retag item.
Proof. unfold retag. apply insert_insert_eq. Qed.

(** X22.  What the wrapped handler returns is canonical: every content
    item has the type ['text'], and wrapping a handler that returns such
    a result gives the result back unchanged. *)
Theorem wrapped_result_is_canonical {Args : Type}
    (handler : Args → outcome HandlerResult) (args : Args) (result : HandlerResult) :
  handler args = Resolved result →
  ∃ out,
    wrappedHandler handler args = Resolved out
    ∧ Forall (λ item, item !! "type" = Some (JStr "text")) (content out)
    ∧ wrappedHandler (λ _ : Args, Resolved {| toolResult := out |}) args
      = Resolved out.
Proof.
  intros Hres. unfold wrappedHandler. rewrite Hres.
  eexists. split; [reflexivity|]. simpl. split.
  - apply Forall_fmap, Forall_true. intros item. apply retag_type.
  - f_equal. f_equal. rewrite <- list_fmap_compose.
    apply list_fmap_ext. intros i item _. apply retag_idempotent.
Qed.

End ToolAdapterFurther.

(** ** The session header, further *)

Section HeaderFacts.
Import Server.
Context {Body : Type} (isInit : Body → bool).

Lemma ifTruthy_getSessionId {A} (h : HeaderValue) (yes : string → A) (no : A) :
  ifTruthy (getSessionId h) yes no = ifTruthy (firstValue h) yes no.
Proof.
  destruct h as [|s|values]; simpl; try done. by destruct (nonEmpty s) eqn:Hs; simpl; rewrite ?Hs.
Qed.

(** X23.  Of an [Mcp-Session-Id] header only the first value counts:
    two requests that differ only in that header, with the same first
    value (a string stands for itself), are answered alike, on every
    route and in every state. *)
Theorem first_header_value_decides token (st : State) (req : @Request Body)
    (ext : Forwarding) (h1 h2 : HeaderValue) :
  firstValue h1 = firstValue h2 →
  app isInit token st (withSessionHeader h1 req) ext
  = app isInit token st (withSessionHeader h2 req) ext.
Proof.
  intros Hfirst.
  unfold app, bearerMatches, router, getMcp, deleteMcp, sessionRoute, postMcp.
  simpl. by rewrite !ifTruthy_getSessionId, Hfirst.
Qed.

End HeaderFacts.

(** ** Cleanup and routing together *)

Section AfterCleanup.
Import Server.
Context {Body : Type} (isInit : Body → bool).

Lemma httpCleanup_empties fails (st : State) :
  sessions (httpCleanup fails st).1.1 = [].
Proof.
  unfold httpCleanup.
  pose proof (closeSessions_sessions fails (sessions (logToFile ShuttingDownHttp st))
                (logToFile ShuttingDownHttp st) []) as Htable.
  destruct (closeSessions fails (sessions (logToFile ShuttingDownHttp st))
              (logToFile ShuttingDownHttp st) []) as [st1 calls].
  simpl in *. rewrite Htable. by apply mdelete_all.
Qed.

(** X24.  No session survives the HTTP cleanup: in the state it leaves,
    whatever closes failed, a POST, GET or DELETE on [/mcp] that bears a
    session id is answered 404 (with the error -32000 for POST, in plain
    text for GET and DELETE) and never forwarded. *)
Theorem no_session_survives_cleanup fails token (st : State) (req : @Request Body)
    (ext : Forwarding) (sessionId : string) :
  admitted token req = true →
  path req = "/mcp" →
  method req ≠ OTHER →
  getSessionId (mcpSessionId req) = Some sessionId →
  sessionId ≠ "" →
  app isInit token (httpCleanup fails st).1.1 req ext
  = ((httpCleanup fails st).1.1,
     match method req with
     | POST => Json 404 unknownSession
     | _ => Send 404 "Unknown session ID"
     end).
Proof.
  intros Hadm Hp Hm Hsid Hne. rewrite (app_admitted _ _ _ _ _ Hadm).
  rewrite (router_unknown_session _ _ _ _ sessionId Hp Hsid Hne).
  - by destruct (method req).
  - by rewrite httpCleanup_empties.
Qed.

End AfterCleanup.

(** ** The further properties on concrete inputs *)

Section FurtherSamples.
Import ToolAdapter Server Shutdown Samples.

Lemma known_session_is_forwarded_witness :
  app isInit (Some "secret") oneSession
    (request DELETE "/mcp" (Some "Bearer secret") (HArray ["abc"; "xyz"]) false)
    Returns
  = (oneSession, ByTransport entry0).
Proof.
  apply (known_session_is_forwarded isInit (Some "secret") oneSession _ "abc" entry0);
    done.
Defined.

Lemma missing_session_id_is_400_witness :
  app isInit None oneSession
    (request DELETE "/mcp" None (HString "") true) (Throws "boom" false)
  = (oneSession, Send 400 "Missing session ID").
Proof.
  apply (missing_session_id_is_400 isInit None oneSession); [done..|by right|done].
Defined.

Lemma forwarding_fault_is_caught_witness :
  log (app isInit None oneSession
         (request GET "/mcp" None (HString "abc") false) (Throws "boom" false)).1
  = [ErrGet "abc" "boom"]
  ∧ (app isInit None oneSession
       (request GET "/mcp" None (HString "abc") false) (Throws "boom" false)).2
    = Send 500 "Internal server error".
Proof.
  destruct (forwarding_fault_is_caught isInit None oneSession
              (request GET "/mcp" None (HString "abc") false)
              "abc" entry0 "boom" false)
    as (_ & _ & Hlog & Hreply); [done..|].
  split; [exact Hlog | exact Hreply].
Defined.

Lemma initialize_builds_unpublished_session_witness :
  sessions (app isInit None oneSession
              (request POST "/mcp" None HUndefined true) Returns).1
  = [("abc", entry0)]
  ∧ (app isInit None oneSession
       (request POST "/mcp" None HUndefined true) Returns).2
    = ByTransport {| server := 2; transport := 3 |}.
Proof.
  destruct (initialize_builds_unpublished_session isInit None oneSession
              (request POST "/mcp" None HUndefined true) Returns)
    as (Htable & _ & Hreply); [done..|].
  split; [exact Htable | exact Hreply].
Defined.

Lemma published_session_is_routed_witness :
  app isInit None (onsessioninitialized entry0 (Some "abc") noSessions)
    (request POST "/mcp" None (HString "abc") false) Returns
  = (onsessioninitialized entry0 (Some "abc") noSessions, ByTransport entry0).
Proof.
  destruct (published_session_is_routed isInit None noSessions
              (request POST "/mcp" None (HString "abc") false) "abc" entry0)
    as (_ & _ & Hroute); [done..|].
  exact Hroute.
Defined.

Lemma closed_session_is_unknown_witness :
  ensureSession (onsessionclosed (Some "abc") oneSession) "abc" = None
  ∧ app isInit None (onsessionclosed (Some "abc") oneSession)
      (request DELETE "/mcp" None (HString "abc") false) Returns
    = (onsessionclosed (Some "abc") oneSession, Send 404 "Unknown session ID").
Proof.
  destruct (closed_session_is_unknown isInit None oneSession
              (onsessionclosed (Some "abc") oneSession)
              (request DELETE "/mcp" None (HString "abc") false) Returns
              "abc" (Resolved ()))
    as (Hgone & _ & Hroute); [done|by left|done..|].
  split; [exact Hgone | exact Hroute].
Defined.

Lemma closing_absent_session_keeps_table_witness :
  sessions (onsessionclosed (Some "xyz") oneSession) = [("abc", entry0)]
  ∧ sessions (onclose (Some "xyz") (Rejected "boom") oneSession) = [("abc", entry0)].
Proof.
  apply (closing_absent_session_keeps_table oneSession (Some "xyz") (Rejected "boom")).
  by intros id [= <-].
Defined.

Lemma exit_needs_a_trigger_witness :
  exited (run [CleanupSettled false; Raise UnhandledRejection; CleanupSettled true]
            boot) = Some 1
  ∧ ∃ t, Raise t ∈ [CleanupSettled false; Raise UnhandledRejection;
                    CleanupSettled true]
         ∧ 1 = exitCodeOf t.
Proof.
  split; [reflexivity|].
  exact (proj1 (exit_needs_a_trigger
                  [CleanupSettled false; Raise UnhandledRejection; CleanupSettled true]
                  1 eq_refl)).
Defined.

Lemma wrapped_result_is_canonical_witness :
  ∃ out,
    wrappedHandler sampleHandler () = Resolved out
    ∧ Forall (λ item, item !! "type" = Some (JStr "text")) (content out).
Proof.
  destruct (wrapped_result_is_canonical sampleHandler () _ eq_refl)
    as (out & Hout & Hall & _).
  exists out. split; [exact Hout | exact Hall].
Defined.

Lemma first_header_value_decides_witness :
  app isInit None oneSession
    (withSessionHeader (HString "abc") (request GET "/mcp" None HUndefined false))
    Returns
  = app isInit None oneSession
      (withSessionHeader (HArray ["abc"; "xyz"])
         (request GET "/mcp" None HUndefined false))
      Returns.
Proof.
  apply (first_header_value_decides isInit None oneSession _ Returns
           (HString "abc") (HArray ["abc"; "xyz"])).
  reflexivity.
Defined.

Lemma no_session_survives_cleanup_witness :
  (app isInit None (httpCleanup twoFailures threeSessions).1.1
     (request POST "/mcp" None (HString "b") false) Returns).2
  = Json 404 unknownSession.
Proof.
  by rewrite (no_session_survives_cleanup isInit twoFailures None threeSessions
                (request POST "/mcp" None (HString "b") false) Returns "b").
Defined.

End FurtherSamples.
